(** * PowerToys.Update: the two-stage updater

    A shallow embedding of [src/Update/PowerToys.Update.cpp] and the
    properties of its update staging state machine.

    The program is a sequence of calls into the operating system, the network
    and the settings store.  Each function of the source becomes a
    computation in a small monad [M] that threads the part of the machine the
    program reads and writes (the persisted update record and the file
    system) and collects the side effects it performs (log lines, record
    writes, downloads, launches) in program order.  What the outside world
    answers to a call (did the query succeed, did the copy succeed, what did
    the installer return) is read from an [Oracle], one per process. *)

From Stdlib Require Import ZArith Ascii.
From stdpp Require Import base option gmap strings list fin_maps.

(** ** Data model *)

(** [UpdateState::State], with the four values the update flow knows. *)
Inductive State : Set :=
  | upToDate
  | readyToDownload
  | readyToInstall
  | errorDownloading.

#[global] Instance State_eq_dec : EqDecision State.
Proof. solve_decision. Defined.

Definition State_name (s : State) : string :=
  match s with
  | upToDate => "upToDate"
  | readyToDownload => "readyToDownload"
  | readyToInstall => "readyToInstall"
  | errorDownloading => "errorDownloading"
  end.

(** [UpdateState]: the fields the updater touches.  The time stamp is a
    [std::optional<time_t>] (the source calls [emplace] on it), the file name
    a plain wide string (the source appends it to a path), so an unset file
    name is the empty string. *)
Record UpdateState : Set := mkUpdateState {
  state : State;
  githubUpdateLastCheckedDate : option Z;
  downloadedInstallerFilename : string
}.

(** Modelled from the spec: the value-initialised record [UpdateState{}]
    (the struct is declared in common/updating/updateState.h, which is not
    part of this file).  Section 4.1 gives the defaults: a
    readyToDownload-equivalent initial state, no time stamp, no file name. *)
Definition UpdateState_default : UpdateState :=
  {| state := readyToDownload;
     githubUpdateLastCheckedDate := None;
     downloadedInstallerFilename := EmptyString |}.

(** The two field assignments of the source: [s.state = v] and
    [s.githubUpdateLastCheckedDate.emplace(t)]. *)
Definition set_state (v : State) (s : UpdateState) : UpdateState :=
  {| state := v;
     githubUpdateLastCheckedDate := githubUpdateLastCheckedDate s;
     downloadedInstallerFilename := downloadedInstallerFilename s |}.

Definition emplace_githubUpdateLastCheckedDate (t : Z) (s : UpdateState) : UpdateState :=
  {| state := state s;
     githubUpdateLastCheckedDate := Some t;
     downloadedInstallerFilename := downloadedInstallerFilename s |}.

(** The data-model invariant of the record: a file name is recorded exactly
    when the state is [readyToInstall]. *)
Definition filename_invariant (s : UpdateState) : Prop :=
  downloadedInstallerFilename s ≠ EmptyString ↔ state s = readyToInstall.

(** [new_version_download_info]: what the resolver returns for a newer
    release. *)
Record new_version_download_info : Set := {
  installer_download_url : string;
  installer_filename : string
}.

(** [github_version_info], a [std::variant] of the two answers. *)
Inductive github_version_info : Set :=
  | version_up_to_date
  | new_version (info : new_version_download_info).

(** What [sei.hProcess] refers to when the bounded wait returns: a process
    that has ended, a process that is still running, or nothing at all (the
    handle is null when the launch created no process of its own). *)
Inductive ProcessStatus : Set :=
  | Exited (code : Z)
  | StillActive
  | NoProcess.

(** ** Paths and strings *)

(** [fs::path::operator/] for a relative right operand: the two parts joined
    by the preferred separator. *)
Definition path_append (dir name : string) : string :=
  dir +:+ "\" +:+ name.

(** [::towlower], on the ASCII range. *)
Definition towlower (c : ascii) : ascii :=
  let n := nat_of_ascii c in
  if (Nat.leb 65 n && Nat.leb n 90)%bool then ascii_of_nat (n + 32) else c.

(** [std::transform(s.begin(), s.end(), s.begin(), f)]. *)
Fixpoint transform (f : ascii → ascii) (s : string) : string :=
  match s with
  | EmptyString => EmptyString
  | String c s' => String (f c) (transform f s')
  end.

(** [std::wstring::ends_with]. *)
Definition ends_with (s suffix : string) : bool :=
  let n := String.length s in
  let k := String.length suffix in
  (Nat.leb k n && String.eqb (String.substring (n - k) k s) suffix)%bool.

(** ** The machine and the effects *)

(** The part of the machine the updater reads and writes: the persisted
    update record, as [UpdateState::read] returns it (a missing or unreadable
    record reads as the default one, section 4.1), and the file system, a
    finite map from the paths that exist to their contents. *)
Record World : Type := mkWorld {
  persisted : UpdateState;
  files : gmap string string
}.

Inductive Level : Set := error | info.

(** The side effects of a run, in program order. *)
Inductive Effect : Set :=
  | Log (lvl : Level) (fmt : string) (args : list string)
  | LogCleanupFailure (file : string)
  | LoggerInit
  | StoreState (s : UpdateState)
  | HttpDownload (url dst : string)
  | SendClose
  | ShellExecute (lpFile : string) (lpParameters : list string)
  | MsiInstallProduct (package : string)
  | WaitForSingleObject (milliseconds : Z).

(** How [WinMain] ends: it returns an exit code, or it reads [args] past the
    [nArgs] entries [CommandLineToArgvW] returned, which is undefined
    behaviour. *)
Inductive ExitStatus : Set :=
  | Exit (code : Z)
  | UndefinedBehaviour.

(** The constants and locations of an installation.  The two mode arguments
    are defined in runner/UpdateUtils.h, which is not part of this file. *)
Record Config : Set := {
  UPDATE_NOW_LAUNCH_STAGE1 : string;
  UPDATE_NOW_LAUNCH_STAGE2 : string;
  temp_directory_path : string;
  get_module_filename : string;
  get_pending_updates_path : string
}.

(** What the outside world answers during one process run. *)
Record Oracle : Type := {
  (** [timeutil::now()] *)
  now : Z;
  (** [get_github_version_info_async().get()]; [None] is a failed query *)
  github_version : option github_version_info;
  (** contents fetched by [download_new_version], [None] when it fails *)
  download_result : option string;
  (** files of the pending-updates directory that cannot be removed *)
  remove_fails : string → bool;
  (** [fs::copy_file] meets no error of the operating system *)
  copy_file_ok : bool;
  (** [FindWindowW] finds the tray icon window *)
  tray_window : bool;
  (** [ShellExecuteExW(&sei) == TRUE] *)
  ShellExecuteExW_result : bool;
  (** the launched process when the wait returns *)
  hProcess : ProcessStatus;
  (** the return value of [MsiInstallProductW] *)
  MsiInstallProductW_result : Z
}.

(** ** The monad *)

Definition M (A : Type) : Type := World → A * World * list Effect.

#[global] Instance M_ret : MRet M := λ A a w, (a, w, []).

#[global] Instance M_bind : MBind M := λ A B k m w,
  let '(a, w1, t1) := m w in
  let '(b, w2, t2) := k a w1 in
  (b, w2, t1 ++ t2).

Definition emit (e : Effect) : M unit := λ w, (tt, w, [e]).

Definition result {A} (r : A * World * list Effect) : A := r.1.1.
Definition world {A} (r : A * World * list Effect) : World := r.1.2.
Definition trace {A} (r : A * World * list Effect) : list Effect := r.2.

(** Number of downloads in a trace. *)
Fixpoint download_count (t : list Effect) : nat :=
  match t with
  | [] => 0
  | HttpDownload _ _ :: t' => S (download_count t')
  | _ :: t' => download_count t'
  end.

(** The records written in a trace, oldest first. *)
Fixpoint stores (t : list Effect) : list UpdateState :=
  match t with
  | [] => []
  | StoreState s :: t' => s :: stores t'
  | _ :: t' => stores t'
  end.

(** The process a trace launched last, as its argument vector. *)
Fixpoint launched (t : list Effect) : option (list string) :=
  match t with
  | [] => None
  | ShellExecute f ps :: t' =>
      match launched t' with
      | Some argv => Some argv
      | None => Some (f :: ps)
      end
  | _ :: t' => launched t'
  end.

Definition ERROR_SUCCESS : Z := 0%Z.
Definition STILL_ACTIVE : Z := 259%Z.

(** ** The program *)

Section Updater.

Context (cfg : Config) (o : Oracle).

(** *** What the program calls *)

Definition Logger_error (fmt : string) (args : list string) : M unit :=
  emit (Log error fmt args).

Definition Logger_info (fmt : string) (args : list string) : M unit :=
  emit (Log info fmt args).

Definition Logger_init : M unit := emit LoggerInit.

Definition UpdateState_read : M UpdateState := λ w, (persisted w, w, []).

(** Modelled from the spec: [UpdateState::store] (common/updating, not part
    of this file).  Section 4.1: it applies the transformation to a freshly
    read copy of the record and writes the whole result back. *)
Definition UpdateState_store (state_modifier : UpdateState → UpdateState) : M unit :=
  λ w,
    let s := state_modifier (persisted w) in
    (tt, {| persisted := s; files := files w |}, [StoreState s]).

Definition fs_exists (p : string) : M bool :=
  λ w, (bool_decide (is_Some (files w !! p)), w, []).

(** Modelled from the spec: the file name cleanup spares.  The source calls
    [cleanup_updates] without an argument, so the current target is what the
    persisted record names: the artifact referenced by a [readyToInstall]
    record (section 8). *)
Definition current_target (s : UpdateState) : string :=
  path_append (get_pending_updates_path cfg) (downloadedInstallerFilename s).

(** A path directly inside the pending-updates directory. *)
Definition pending_entry (p : string) : bool :=
  String.prefix (get_pending_updates_path cfg +:+ "\") p.

(** The files that are still there after cleanup: everything outside the
    pending-updates directory, the current target, and what could not be
    removed. *)
Definition survives_cleanup (s : UpdateState) (p : string) : bool :=
  negb (pending_entry p) || String.eqb p (current_target s) || remove_fails o p.

(** Modelled from the spec: [updating::cleanup_updates] (common/updating,
    not part of this file).  Sections 4.3 and 8: it removes the previously
    downloaded artifacts that do not match the current target file name, and
    only those; it is best effort, a file that cannot be removed stays and
    the failure is logged (with a line whose wording is not given, hence an
    effect of its own).  [cleaned_up] is the machine it leaves,
    [cleanup_failures] the files it could not remove. *)
Definition cleaned_up (w : World) : World :=
  {| persisted := persisted w;
     files :=
       filter (λ e : string * string, survives_cleanup (persisted w) e.1 = true) (files w) |}.

Definition cleanup_failures (w : World) : list string :=
  (map_to_list
     (filter (λ e : string * string,
                pending_entry e.1 && negb (String.eqb e.1 (current_target (persisted w))) = true)
        (files (cleaned_up w)))).*1.

Definition cleanup_updates : M unit :=
  λ w, (tt, cleaned_up w, LogCleanupFailure <$> cleanup_failures w).

(** Modelled from the spec: [updating::download_new_version]
    (common/updating, not part of this file).  Section 4.3: it downloads the
    artifact from the resolver's URL into the pending-updates directory and
    returns its path, or nothing when the download fails. *)
Definition download_new_version (new_version : new_version_download_info) : M (option string) :=
  λ w,
    let dst := path_append (get_pending_updates_path cfg) (installer_filename new_version) in
    let request := HttpDownload (installer_download_url new_version) dst in
    match download_result o with
    | Some contents =>
        (Some dst, {| persisted := persisted w; files := <[dst := contents]> (files w) |}, [request])
    | None => (None, w, [request])
    end.

(** [fs::copy_file(from, to, fs::copy_options::overwrite_existing, error)]:
    an error when [from] does not exist, when [from] and [to] are the same
    file, or when the operating system refuses; otherwise [to] holds the
    contents of [from], whether it existed before or not.  The result is
    [true] when [error] is set. *)
Definition fs_copy_file_overwrite_existing (from to : string) : M bool :=
  λ w,
    match files w !! from with
    | Some contents =>
        if bool_decide (from = to) || negb (copy_file_ok o) then (true, w, [])
        else (false, {| persisted := persisted w; files := <[to := contents]> (files w) |}, [])
    | None => (true, w, [])
    end.

(** [ShellExecuteExW(&sei)]; the parameter string is kept as the arguments
    it denotes. *)
Definition ShellExecuteExW (lpFile : string) (lpParameters : list string) : M bool :=
  λ w,
    if ShellExecuteExW_result o then (true, w, [ShellExecute lpFile lpParameters])
    else (false, w, []).

Definition MsiInstallProductW (package : string) : M Z :=
  λ w, (MsiInstallProductW_result o, w, [MsiInstallProduct package]).

(** [GetExitCodeProcess(sei.hProcess, &exitCode)]: it stores the exit code
    of a process that has ended and [STILL_ACTIVE] for one that has not; on a
    null handle it fails and leaves [exitCode] as it was. *)
Definition GetExitCodeProcess (exitCode : Z) : Z :=
  match hProcess o with
  | Exited code => code
  | StillActive => STILL_ACTIVE
  | NoProcess => exitCode
  end.

(** *** [CopySelfToTempDir] *)

Definition CopySelfToTempDir : M (option string) :=
  let dst_path := path_append (temp_directory_path cfg) "PowerToys.Update.exe" in
  error ← fs_copy_file_overwrite_existing (get_module_filename cfg) dst_path;
  if error : bool then
    _ ← Logger_error "Failed to copy to temp directory: {}" [];
    mret None
  else mret (Some dst_path).

(** *** [ObtainInstaller]

    The result pairs the returned path with the out-parameter [isUpToDate]. *)

Definition ObtainInstaller : M (option string * bool) :=
  s ← UpdateState_read;
  match github_version o with
  | None =>
      _ ← Logger_error "Failed to retrieve version info. Check your network connection." [];
      mret (None, false)
  | Some version_up_to_date =>
      _ ← Logger_info "PowerToys is already up to date." [];
      mret (None, true)
  | Some (new_version new_version_info) =>
      _ ← cleanup_updates;
      if bool_decide (s.(state) = readyToDownload ∨ s.(state) = errorDownloading) then
        downloaded_installer ← download_new_version new_version_info;
        match downloaded_installer with
        | None =>
            _ ← Logger_error "Failed to download new installer." [];
            mret (None, false)
        | Some installer => mret (Some installer, false)
        end
      else if bool_decide (s.(state) = readyToInstall) then
        let installer :=
          path_append (get_pending_updates_path cfg) s.(downloadedInstallerFilename) in
        found ← fs_exists installer;
        if negb found then
          _ ← Logger_error "Installer file not found: {}" [installer];
          mret (None, false)
        else mret (Some installer, false)
      else
        _ ← Logger_error "Unexpected update state: {}" [State_name s.(state)];
        mret (None, false)
  end.

(** *** [InstallNewVersionStage1] *)

Definition InstallNewVersionStage1 (installer : string) : M bool :=
  temp_exe ← CopySelfToTempDir;
  match temp_exe with
  | None => mret false
  | Some temp_exe =>
      _ ← (if tray_window o then emit SendClose else mret tt);
      let arguments := [UPDATE_NOW_LAUNCH_STAGE2 cfg; installer] in
      ShellExecuteExW temp_exe arguments
  end.

(** *** [InstallNewVersionStage2] *)

Definition InstallNewVersionStage2 (installer_path : string) : M bool :=
  let installer_path := transform towlower installer_path in
  success ←
    (if ends_with installer_path ".msi" then
       code ← MsiInstallProductW installer_path;
       mret (bool_decide (code = ERROR_SUCCESS))
     else
       success ← ShellExecuteExW installer_path ["/passive"; "/norestart"];
       if success : bool then
         let exitCode := 0%Z in
         _ ← emit (WaitForSingleObject 60000);
         let exitCode := GetExitCodeProcess exitCode in
         mret (bool_decide (exitCode = 0%Z))
       else mret false);
  if negb success then
    _ ← Logger_error "Installer failed: {}" [installer_path];
    mret false
  else
    _ ← UpdateState_store (λ s,
          let s := UpdateState_default in
          let s := emplace_githubUpdateLastCheckedDate (now o) s in
          set_state upToDate s);
    mret true.

(** *** [WinMain]

    [args] is the vector [CommandLineToArgvW] returns, [None] when it fails;
    [nArgs] is its length, so [nArgs < 2] says that [args[1]] is missing. *)

Definition WinMain (args : option (list string)) : M ExitStatus :=
  match args ≫= (.!! 1%nat) with
  | None =>
      _ ← Logger_error "Invalid command-line arguments." [];
      mret (Exit 1)
  | Some action =>
      _ ← Logger_init;
      if bool_decide (action = UPDATE_NOW_LAUNCH_STAGE1 cfg) then
        '(installer, isUpToDate) ← ObtainInstaller;
        started ←
          match installer with
          | None => mret false
          | Some installer => InstallNewVersionStage1 installer
          end;
        _ ← (if negb started then
               UpdateState_store (λ s,
                 let s := UpdateState_default in
                 let s := emplace_githubUpdateLastCheckedDate (now o) s in
                 set_state (if isUpToDate : bool then upToDate else errorDownloading) s)
             else mret tt);
        mret (Exit 0)
      else if bool_decide (action = UPDATE_NOW_LAUNCH_STAGE2 cfg) then
        match args ≫= (.!! 2%nat) with
        | None => mret UndefinedBehaviour
        | Some installer_path =>
            installed ← InstallNewVersionStage2 installer_path;
            _ ← (if negb installed then
                   UpdateState_store (λ s,
                     let s := UpdateState_default in
                     let s := emplace_githubUpdateLastCheckedDate (now o) s in
                     set_state errorDownloading s)
                 else mret tt);
            mret (Exit 0)
        end
      else
        _ ← Logger_error "Invalid action specified: {}" [action];
        mret (Exit 1)
  end.

End Updater.

(** ** A complete update attempt

    Stage 1 runs in the process the scheduler started; when it launches the
    relocated copy, Stage 2 runs next, in a process of its own, on the
    machine as Stage 1 left it. *)
Definition update_attempt (cfg : Config) (o1 o2 : Oracle)
    (exe : string) (rest : list string) (w : World) : World * list Effect :=
  let r1 := WinMain cfg o1 (Some (exe :: UPDATE_NOW_LAUNCH_STAGE1 cfg :: rest)) w in
  match launched (trace r1) with
  | Some child_args =>
      let r2 := WinMain cfg o2 (Some child_args) (world r1) in
      (world r2, trace r1 ++ trace r2)
  | None => (world r1, trace r1)
  end.

(** ** A concrete installation, for the examples *)

Definition example_cfg : Config :=
  {| UPDATE_NOW_LAUNCH_STAGE1 := "-update_now";
     UPDATE_NOW_LAUNCH_STAGE2 := "-update_now_stage_2";
     temp_directory_path := "C:\Temp";
     get_module_filename := "C:\PowerToys\PowerToys.Update.exe";
     get_pending_updates_path := "C:\PowerToys\Updates" |}.

Definition example_release : new_version_download_info :=
  {| installer_download_url := "https://example.org/setup-2.exe";
     installer_filename := "setup-2.exe" |}.

Definition example_oracle : Oracle :=
  {| now := 1700000000;
     github_version := Some (new_version example_release);
     download_result := Some "installer-2";
     remove_fails := λ _, false;
     copy_file_ok := true;
     tray_window := true;
     ShellExecuteExW_result := true;
     hProcess := Exited 0;
     MsiInstallProductW_result := 0 |}.

Definition example_world (s : UpdateState) : World :=
  {| persisted := s;
     files :=
       <["C:\PowerToys\PowerToys.Update.exe" := "updater"]>
       (<["C:\PowerToys\Updates\setup-1.exe" := "installer-1"]>
       (<["C:\PowerToys\Updates\setup-0.exe" := "installer-0"]> ∅)) |}.

(** The same answers, except that the version query fails. *)
Definition offline_oracle : Oracle :=
  {| now := now example_oracle;
     github_version := None;
     download_result := download_result example_oracle;
     remove_fails := remove_fails example_oracle;
     copy_file_ok := copy_file_ok example_oracle;
     tray_window := tray_window example_oracle;
     ShellExecuteExW_result := ShellExecuteExW_result example_oracle;
     hProcess := hProcess example_oracle;
     MsiInstallProductW_result := MsiInstallProductW_result example_oracle |}.

(** The same answers, except that the installer is still running when the
    wait returns. *)
Definition hung_oracle : Oracle :=
  {| now := now example_oracle;
     github_version := github_version example_oracle;
     download_result := download_result example_oracle;
     remove_fails := remove_fails example_oracle;
     copy_file_ok := copy_file_ok example_oracle;
     tray_window := tray_window example_oracle;
     ShellExecuteExW_result := ShellExecuteExW_result example_oracle;
     hProcess := StillActive;
     MsiInstallProductW_result := MsiInstallProductW_result example_oracle |}.

(** A machine on which an earlier run left a copy of the updater in the
    temporary directory. *)
Definition example_world_with_copy : World :=
  {| persisted := UpdateState_default;
     files :=
       <["C:\Temp\PowerToys.Update.exe" := "updater of an earlier run"]>
       (<["C:\PowerToys\PowerToys.Update.exe" := "updater"]> ∅) |}.

Definition ready_to_install (name : string) : UpdateState :=
  {| state := readyToInstall;
     githubUpdateLastCheckedDate := Some 1690000000%Z;
     downloadedInstallerFilename := name |}.

(** The example answers with some of them replaced. *)
Definition example_oracle_with (version : option github_version_info)
    (download : option string) (copy launch : bool) (process : ProcessStatus) (msi : Z) :
    Oracle :=
  {| now := now example_oracle;
     github_version := version;
     download_result := download;
     remove_fails := remove_fails example_oracle;
     copy_file_ok := copy;
     tray_window := tray_window example_oracle;
     ShellExecuteExW_result := launch;
     hProcess := process;
     MsiInstallProductW_result := msi |}.

(** ** Read off the source *)

(** The lines cleanup logs. *)
Definition cleanup_log (cfg : Config) (o : Oracle) (w : World) : list Effect :=
  trace (cleanup_updates cfg o w).

(** Where [CopySelfToTempDir] puts the copy of the updater. *)
Definition temp_copy (cfg : Config) : string :=
  path_append (temp_directory_path cfg) "PowerToys.Update.exe".

(** The value of [success] when [InstallNewVersionStage2] tests it. *)
Definition installs (o : Oracle) (installer_path : string) : bool :=
  if ends_with (transform towlower installer_path) ".msi" then
    bool_decide (MsiInstallProductW_result o = ERROR_SUCCESS)
  else
    ShellExecuteExW_result o && bool_decide (GetExitCodeProcess o 0 = 0%Z).

(** The record every write of the updater stores: the default record with a
    fresh time stamp and the given state. *)
Definition written (o : Oracle) (v : State) : UpdateState :=
  set_state v (emplace_githubUpdateLastCheckedDate (now o) UpdateState_default).

Definition with_persisted (s : UpdateState) (w : World) : World :=
  {| persisted := s; files := files w |}.

(** * Properties *)

(** ** Traces *)

Lemma stores_app (t1 t2 : list Effect) : stores (t1 ++ t2) = stores t1 ++ stores t2.
Proof.
  induction t1 as [|e t1 IH]; [reflexivity|].
  destruct e; simpl; rewrite ?IH; reflexivity.
Qed.

Lemma download_count_app (t1 t2 : list Effect) :
  download_count (t1 ++ t2) = download_count t1 + download_count t2.
Proof.
  induction t1 as [|e t1 IH]; [reflexivity|].
  destruct e; simpl; rewrite ?IH; reflexivity.
Qed.

Lemma launched_app (t1 t2 : list Effect) :
  launched (t1 ++ t2) =
  match launched t2 with
  | Some argv => Some argv
  | None => launched t1
  end.
Proof.
  induction t1 as [|e t1 IH]; simpl.
  - destruct (launched t2); reflexivity.
  - destruct e; simpl; rewrite ?IH; try reflexivity.
    destruct (launched t2); reflexivity.
Qed.

(** ** Running the monad *)

Lemma run_bind {A B} (m : M A) (k : A → M B) (w : World) :
  (m ≫= k) w =
  (result (k (result (m w)) (world (m w))),
   world (k (result (m w)) (world (m w))),
   trace (m w) ++ trace (k (result (m w)) (world (m w)))).
Proof.
  unfold mbind, M_bind, result, world, trace.
  destruct (m w) as [[a w1] t1]; simpl.
  destruct (k a w1) as [[b w2] t2]; reflexivity.
Qed.

Ltac unfold_calls :=
  unfold Logger_error, Logger_info, Logger_init, UpdateState_read, UpdateState_store,
    fs_exists, cleanup_updates, download_new_version, fs_copy_file_overwrite_existing,
    ShellExecuteExW, MsiInstallProductW, emit, mret, M_ret, mbind, M_bind.

(** ** Cleanup *)

Section Cleanup.

Context (cfg : Config) (o : Oracle).

Lemma cleaned_up_files (w : World) (p contents : string) :
  files (cleaned_up cfg o w) !! p = Some contents ↔
  files w !! p = Some contents ∧ survives_cleanup cfg o (persisted w) p = true.
Proof. unfold cleaned_up; simpl. apply map_lookup_filter_Some. Qed.

Lemma survives_cleanup_target (s : UpdateState) :
  survives_cleanup cfg o s (current_target cfg s) = true.
Proof.
  unfold survives_cleanup. rewrite String.eqb_refl.
  destruct (pending_entry cfg (current_target cfg s)); reflexivity.
Qed.

Lemma cleaned_up_absent (w : World) (p : string) :
  files w !! p = None → files (cleaned_up cfg o w) !! p = None.
Proof.
  intros E.
  destruct (files (cleaned_up cfg o w) !! p) as [contents|] eqn:E'; [|reflexivity].
  apply cleaned_up_files in E' as [E' _]. congruence.
Qed.

Lemma cleaned_up_target (w : World) :
  files (cleaned_up cfg o w) !! current_target cfg (persisted w) =
  files w !! current_target cfg (persisted w).
Proof.
  destruct (files w !! current_target cfg (persisted w)) as [contents|] eqn:E.
  - apply cleaned_up_files. split; [exact E | apply survives_cleanup_target].
  - apply cleaned_up_absent, E.
Qed.

Lemma cleanup_log_quiet (w : World) :
  stores (cleanup_log cfg o w) = [] ∧
  launched (cleanup_log cfg o w) = None ∧
  download_count (cleanup_log cfg o w) = 0.
Proof.
  unfold cleanup_log, cleanup_updates, trace; simpl.
  induction (cleanup_failures cfg o w) as [|p l IH]; simpl; done.
Qed.

End Cleanup.

#[global] Arguments cleaned_up : simpl never.

(** ** [ObtainInstaller], case by case *)

Section ObtainInstaller.

Context (cfg : Config) (o : Oracle) (w : World).

Lemma ObtainInstaller_query_failed :
  github_version o = None →
  ObtainInstaller cfg o w =
  (None, false, w,
   [Log error "Failed to retrieve version info. Check your network connection." []]).
Proof. intros E. unfold ObtainInstaller. unfold_calls. rewrite E. reflexivity. Qed.

Lemma ObtainInstaller_up_to_date :
  github_version o = Some version_up_to_date →
  ObtainInstaller cfg o w =
  (None, true, w, [Log info "PowerToys is already up to date." []]).
Proof. intros E. unfold ObtainInstaller. unfold_calls. rewrite E. reflexivity. Qed.

Lemma ObtainInstaller_download (i : new_version_download_info) :
  github_version o = Some (new_version i) →
  state (persisted w) = readyToDownload ∨ state (persisted w) = errorDownloading →
  ObtainInstaller cfg o w =
  let dst := path_append (get_pending_updates_path cfg) (installer_filename i) in
  let w1 := cleaned_up cfg o w in
  match download_result o with
  | Some contents =>
      (Some dst, false,
       {| persisted := persisted w; files := <[dst := contents]> (files w1) |},
       cleanup_log cfg o w ++ [HttpDownload (installer_download_url i) dst])
  | None =>
      (None, false, w1,
       cleanup_log cfg o w ++
       [HttpDownload (installer_download_url i) dst;
        Log error "Failed to download new installer." []])
  end.
Proof.
  intros E Hs. unfold ObtainInstaller. unfold_calls. rewrite E. simpl.
  rewrite bool_decide_eq_true_2 by exact Hs.
  destruct (download_result o); reflexivity.
Qed.

Lemma ObtainInstaller_reuse (i : new_version_download_info) :
  github_version o = Some (new_version i) →
  state (persisted w) = readyToInstall →
  ObtainInstaller cfg o w =
  let installer := current_target cfg (persisted w) in
  let w1 := cleaned_up cfg o w in
  match files w1 !! installer with
  | Some _ => (Some installer, false, w1, cleanup_log cfg o w)
  | None =>
      (None, false, w1,
       cleanup_log cfg o w ++ [Log error "Installer file not found: {}" [installer]])
  end.
Proof.
  intros E Hs. unfold ObtainInstaller. unfold_calls. rewrite E. cbn.
  rewrite bool_decide_eq_false_2 by (rewrite Hs; intros [?|?]; discriminate).
  rewrite bool_decide_eq_true_2 by exact Hs.
  fold (current_target cfg (persisted w)). fold (cleanup_log cfg o w).
  destruct (files (cleaned_up cfg o w) !! current_target cfg (persisted w)) eqn:F.
  - rewrite bool_decide_eq_true_2 by eauto. cbn. rewrite app_nil_r. reflexivity.
  - rewrite bool_decide_eq_false_2 by (intros [? ?]; discriminate). reflexivity.
Qed.

Lemma ObtainInstaller_unexpected (i : new_version_download_info) :
  github_version o = Some (new_version i) →
  state (persisted w) = upToDate →
  ObtainInstaller cfg o w =
  (None, false, cleaned_up cfg o w,
   cleanup_log cfg o w ++ [Log error "Unexpected update state: {}" [State_name upToDate]]).
Proof.
  intros E Hs. unfold ObtainInstaller. unfold_calls. rewrite E. simpl.
  rewrite bool_decide_eq_false_2 by (rewrite Hs; intros [?|?]; discriminate).
  rewrite bool_decide_eq_false_2 by (rewrite Hs; discriminate).
  rewrite Hs. reflexivity.
Qed.

(** What every call has in common: the record is only read, nothing is
    written, nothing is launched. *)
Lemma ObtainInstaller_quiet :
  persisted (world (ObtainInstaller cfg o w)) = persisted w ∧
  stores (trace (ObtainInstaller cfg o w)) = [] ∧
  launched (trace (ObtainInstaller cfg o w)) = None.
Proof.
  pose proof (cleanup_log_quiet cfg o w) as (Hs' & Hl' & _).
  destruct (github_version o) as [[|i]|] eqn:E.
  - rewrite ObtainInstaller_up_to_date by exact E. done.
  - destruct (state (persisted w)) eqn:Hs.
    + rewrite (ObtainInstaller_unexpected i) by done.
      unfold world, trace; simpl. rewrite stores_app, launched_app, Hs', Hl'. done.
    + rewrite (ObtainInstaller_download i) by auto. cbv zeta.
      destruct (download_result o); unfold world, trace; simpl;
        rewrite stores_app, launched_app, Hs', Hl'; done.
    + rewrite (ObtainInstaller_reuse i) by done. cbv zeta.
      destruct (files (cleaned_up cfg o w) !! current_target cfg (persisted w));
        unfold world, trace; simpl; rewrite ?stores_app, ?launched_app, Hs', Hl'; done.
    + rewrite (ObtainInstaller_download i) by auto. cbv zeta.
      destruct (download_result o); unfold world, trace; simpl;
        rewrite stores_app, launched_app, Hs', Hl'; done.
  - rewrite ObtainInstaller_query_failed by exact E. done.
Qed.

Lemma ObtainInstaller_reuse_present (i : new_version_download_info) (contents : string) :
  github_version o = Some (new_version i) →
  state (persisted w) = readyToInstall →
  files w !! current_target cfg (persisted w) = Some contents →
  ObtainInstaller cfg o w =
  (Some (current_target cfg (persisted w)), false, cleaned_up cfg o w, cleanup_log cfg o w).
Proof.
  intros E Hs F. rewrite (ObtainInstaller_reuse i) by assumption. cbv zeta.
  rewrite cleaned_up_target, F. reflexivity.
Qed.

Lemma ObtainInstaller_reuse_absent (i : new_version_download_info) :
  github_version o = Some (new_version i) →
  state (persisted w) = readyToInstall →
  files w !! current_target cfg (persisted w) = None →
  ObtainInstaller cfg o w =
  (None, false, cleaned_up cfg o w,
   cleanup_log cfg o w ++
   [Log error "Installer file not found: {}" [current_target cfg (persisted w)]]).
Proof.
  intros E Hs F. rewrite (ObtainInstaller_reuse i) by assumption. cbv zeta.
  rewrite cleaned_up_target, F. reflexivity.
Qed.

End ObtainInstaller.

(** ** The two stages and [WinMain], case by case *)

Section Stages.
Context (cfg : Config) (o : Oracle) (w : World).

Lemma CopySelfToTempDir_run :
  CopySelfToTempDir cfg o w =
  match files w !! get_module_filename cfg with
  | Some contents =>
      if bool_decide (get_module_filename cfg = temp_copy cfg) || negb (copy_file_ok o) then
        (None, w, [Log error "Failed to copy to temp directory: {}" []])
      else
        (Some (temp_copy cfg),
         {| persisted := persisted w; files := <[(temp_copy cfg) := contents]> (files w) |}, [])
  | None => (None, w, [Log error "Failed to copy to temp directory: {}" []])
  end.
Proof.
  unfold CopySelfToTempDir. unfold_calls. fold (temp_copy cfg).
  destruct (files w !! get_module_filename cfg); [|reflexivity].
  destruct (bool_decide _ || negb _); reflexivity.
Qed.

Lemma CopySelfToTempDir_result (p : string) :
  result (CopySelfToTempDir cfg o w) = Some p → p = temp_copy cfg.
Proof.
  rewrite CopySelfToTempDir_run.
  destruct (files w !! get_module_filename cfg); [|discriminate].
  destruct (bool_decide _ || negb _); [discriminate|].
  intros [= <-]. reflexivity.
Qed.

Lemma InstallNewVersionStage1_spec (installer : string) :
  let r := InstallNewVersionStage1 cfg o installer w in
  persisted (world r) = persisted w ∧
  stores (trace r) = [] ∧
  launched (trace r) =
    if result r then Some [temp_copy cfg; UPDATE_NOW_LAUNCH_STAGE2 cfg; installer] else None.
Proof.
  unfold InstallNewVersionStage1. cbv zeta. rewrite run_bind, CopySelfToTempDir_run.
  destruct (files w !! get_module_filename cfg); [|done].
  destruct (bool_decide _ || negb _); [done|].
  unfold_calls. unfold result, world, trace. simpl.
  destruct (tray_window o), (ShellExecuteExW_result o); done.
Qed.
End Stages.

Section Stage2.
Context (cfg : Config) (o : Oracle) (w : World).

Lemma InstallNewVersionStage2_spec (installer_path : string) :
  let r := InstallNewVersionStage2 o installer_path w in
  result r = installs o installer_path ∧
  world r = (if result r then with_persisted (written o upToDate) w else w) ∧
  stores (trace r) = (if result r then [written o upToDate] else []) ∧
  (ends_with (transform towlower installer_path) ".msi" = false →
   ShellExecuteExW_result o = true →
   WaitForSingleObject 60000 ∈ trace r).
Proof.
  unfold InstallNewVersionStage2, installs. cbv zeta. unfold_calls.
  destruct (ends_with _ ".msi"); simpl.
  - case_bool_decide; simpl; done.
  - destruct (ShellExecuteExW_result o); simpl; [|done].
    case_bool_decide; simpl; repeat split; intros; set_solver.
Qed.

Lemma WinMain_no_action (args : option (list string)) :
  args ≫= (.!! 1%nat) = None →
  WinMain cfg o args w = (Exit 1, w, [Log error "Invalid command-line arguments." []]).
Proof. intros E. unfold WinMain. rewrite E. reflexivity. Qed.

Lemma WinMain_invalid_action (args : option (list string)) (action : string) :
  args ≫= (.!! 1%nat) = Some action →
  action ≠ UPDATE_NOW_LAUNCH_STAGE1 cfg →
  action ≠ UPDATE_NOW_LAUNCH_STAGE2 cfg →
  WinMain cfg o args w =
  (Exit 1, w, [LoggerInit; Log error "Invalid action specified: {}" [action]]).
Proof.
  intros E H1 H2. unfold WinMain. rewrite E.
  rewrite !bool_decide_eq_false_2 by assumption. reflexivity.
Qed.

Lemma WinMain_stage2_no_path (args : option (list string)) (action : string) :
  args ≫= (.!! 1%nat) = Some action →
  action ≠ UPDATE_NOW_LAUNCH_STAGE1 cfg →
  action = UPDATE_NOW_LAUNCH_STAGE2 cfg →
  args ≫= (.!! 2%nat) = None →
  WinMain cfg o args w = (UndefinedBehaviour, w, [LoggerInit]).
Proof.
  intros E H1 H2 E2. unfold WinMain. rewrite E, E2.
  rewrite bool_decide_eq_false_2 by assumption.
  rewrite bool_decide_eq_true_2 by assumption. reflexivity.
Qed.

Lemma WinMain_stage2 (args : option (list string)) (action installer_path : string) :
  args ≫= (.!! 1%nat) = Some action →
  action ≠ UPDATE_NOW_LAUNCH_STAGE1 cfg →
  action = UPDATE_NOW_LAUNCH_STAGE2 cfg →
  args ≫= (.!! 2%nat) = Some installer_path →
  let r := WinMain cfg o args w in
  let v := if installs o installer_path then upToDate else errorDownloading in
  result r = Exit 0 ∧
  world r = with_persisted (written o v) w ∧
  stores (trace r) = [written o v].
Proof.
  intros E H1 H2 E2. unfold WinMain. rewrite E, E2.
  rewrite bool_decide_eq_false_2 by assumption.
  rewrite bool_decide_eq_true_2 by assumption. cbv beta iota zeta.
  destruct (InstallNewVersionStage2_spec installer_path) as (Hr & Hw & Hs & _).
  cbv zeta in Hr, Hw, Hs. rewrite <- Hr.
  unfold mbind, M_bind, Logger_init, emit.
  destruct (InstallNewVersionStage2 o installer_path w) as [[installed w1] t1].
  unfold result, world, trace in *; simpl in *. subst w1.
  destruct installed; unfold_calls; simpl; rewrite ?stores_app, Hs; done.
Qed.

Lemma WinMain_stage1 (args : option (list string)) (action : string) :
  args ≫= (.!! 1%nat) = Some action →
  action = UPDATE_NOW_LAUNCH_STAGE1 cfg →
  let r := WinMain cfg o args w in
  let v := if (result (ObtainInstaller cfg o w)).2 then upToDate else errorDownloading in
  result r = Exit 0 ∧
  ((launched (trace r) = None ∧
    persisted (world r) = written o v ∧
    stores (trace r) = [written o v]) ∨
   (∃ installer : string,
      (result (ObtainInstaller cfg o w)).1 = Some installer ∧
      launched (trace r) = Some [temp_copy cfg; UPDATE_NOW_LAUNCH_STAGE2 cfg; installer] ∧
      persisted (world r) = persisted w ∧
      stores (trace r) = [])).
Proof.
  intros E H1. unfold WinMain. rewrite E.
  rewrite bool_decide_eq_true_2 by assumption. cbv beta iota zeta.
  destruct (ObtainInstaller_quiet cfg o w) as (Hp & Hs & Hl).
  unfold mbind, M_bind, Logger_init, emit.
  destruct (ObtainInstaller cfg o w) as [[[installer isUpToDate] w1] t1].
  unfold result, world, trace in Hp, Hs, Hl; simpl in Hp, Hs, Hl.
  destruct installer as [installer|].
  - destruct (InstallNewVersionStage1_spec cfg o w1 installer) as (Hp1 & Hs1 & Hl1).
    cbv zeta in Hp1, Hs1, Hl1.
    destruct (InstallNewVersionStage1 cfg o installer w1) as [[started w2] t2].
    unfold result, world, trace in *; simpl in *.
    destruct started; unfold_calls; simpl;
      rewrite ?launched_app, ?stores_app, ?Hl1, ?Hs1, ?Hs, ?Hl; simpl.
    + split; [reflexivity|]. right. exists installer. rewrite Hp1, Hp. done.
    + split; [reflexivity|]. left. done.
  - unfold_calls; simpl. rewrite ?launched_app, ?stores_app, ?Hs, ?Hl; simpl.
    split; [reflexivity|]. left. done.
Qed.

End Stage2.

Lemma written_state (o : Oracle) (v : State) :
  v = upToDate ∨ v = errorDownloading →
  state (written o v) ≠ readyToDownload ∧
  state (written o v) ≠ readyToInstall ∧
  filename_invariant (written o v).
Proof.
  intros Hv. unfold filename_invariant.
  destruct Hv as [-> | ->]; simpl; repeat split; congruence.
Qed.

(** Any run of [WinMain] either writes nothing and leaves the record alone,
    or writes once, and then the record it leaves is the record it wrote. *)
Lemma WinMain_stores (cfg : Config) (o : Oracle) (w : World) (args : option (list string)) :
  let r := WinMain cfg o args w in
  (stores (trace r) = [] ∧ persisted (world r) = persisted w) ∨
  (∃ v : State,
     (v = upToDate ∨ v = errorDownloading) ∧
     stores (trace r) = [written o v] ∧
     persisted (world r) = written o v).
Proof.
  cbv zeta.
  destruct (args ≫= (.!! 1%nat)) as [action|] eqn:E.
  - destruct (decide (action = UPDATE_NOW_LAUNCH_STAGE1 cfg)) as [H1|H1].
    { destruct (WinMain_stage1 cfg o w args action E H1) as (_ & [(_ & Hp & Hs) | H]).
      - right. eexists. split; [|split; [exact Hs | exact Hp]].
        destruct (result (ObtainInstaller cfg o w)).2; auto.
      - destruct H as (installer & _ & _ & Hp & Hs). left. auto. }
    destruct (decide (action = UPDATE_NOW_LAUNCH_STAGE2 cfg)) as [H2|H2].
    { destruct (args ≫= (.!! 2%nat)) as [installer_path|] eqn:E2.
      - destruct (WinMain_stage2 cfg o w args action installer_path E H1 H2 E2)
          as (_ & Hw & Hs).
        right. eexists. split; [|split; [exact Hs | rewrite Hw; reflexivity]].
        destruct (installs o installer_path); auto.
      - rewrite (WinMain_stage2_no_path cfg o w args action) by assumption. left. done. }
    rewrite (WinMain_invalid_action cfg o w args action) by assumption. left. done.
  - rewrite WinMain_no_action by exact E. left. done.
Qed.

(** ** The Installer Acquirer *)

(** C8.  A call to [ObtainInstaller] leaves the persisted update record as it
    found it, whatever the record and whatever the resolver answers, and
    writes nothing; when the version query fails it returns no installer,
    does not set [isUpToDate] and changes nothing at all. *)
Theorem ObtainInstaller_leaves_record (cfg : Config) (o : Oracle) (w : World) :
  persisted (world (ObtainInstaller cfg o w)) = persisted w ∧
  stores (trace (ObtainInstaller cfg o w)) = [] ∧
  (github_version o = None →
   result (ObtainInstaller cfg o w) = (None, false) ∧
   world (ObtainInstaller cfg o w) = w).
Proof.
  destruct (ObtainInstaller_quiet cfg o w) as (Hp & Hs & _).
  split; [exact Hp|]. split; [exact Hs|].
  intros E. rewrite ObtainInstaller_query_failed by exact E. split; reflexivity.
Qed.

Lemma ObtainInstaller_leaves_record_witness :
  github_version offline_oracle = None ∧
  result (ObtainInstaller example_cfg offline_oracle (example_world UpdateState_default)) =
    (None, false) ∧
  world (ObtainInstaller example_cfg offline_oracle (example_world UpdateState_default)) =
    example_world UpdateState_default.
Proof.
  split; [reflexivity|].
  apply (ObtainInstaller_leaves_record example_cfg offline_oracle
           (example_world UpdateState_default)).
  reflexivity.
Defined.

(** C2.  The cleanup [ObtainInstaller] runs when a new version is available
    only removes files: a file that is gone afterwards does not match the
    current target file name, and a file that is there afterwards was there
    before with the same contents.  In particular, under a [readyToInstall]
    record the artifact named by [downloadedInstallerFilename] is after the
    call what it was before it. *)
Theorem cleanup_spares_current_target (cfg : Config) (o : Oracle) (w : World) :
  (∀ p : string,
     is_Some (files w !! p) →
     files (world (cleanup_updates cfg o w)) !! p = None →
     p ≠ current_target cfg (persisted w)) ∧
  (∀ p contents : string,
     files (world (cleanup_updates cfg o w)) !! p = Some contents →
     files w !! p = Some contents) ∧
  (∀ i : new_version_download_info,
     github_version o = Some (new_version i) →
     state (persisted w) = readyToInstall →
     files (world (ObtainInstaller cfg o w))
       !! path_append (get_pending_updates_path cfg) (downloadedInstallerFilename (persisted w)) =
     files w
       !! path_append (get_pending_updates_path cfg) (downloadedInstallerFilename (persisted w))).
Proof.
  change (world (cleanup_updates cfg o w)) with (cleaned_up cfg o w).
  split; [|split].
  - intros p [contents Hp] Hgone ->.
    rewrite cleaned_up_target in Hgone. congruence.
  - intros p contents Hp. apply cleaned_up_files in Hp as [Hp _]. exact Hp.
  - intros i E Hs. fold (current_target cfg (persisted w)).
    rewrite (ObtainInstaller_reuse cfg o w i) by assumption. cbv zeta.
    destruct (files (cleaned_up cfg o w) !! current_target cfg (persisted w));
      apply cleaned_up_target.
Qed.

Lemma cleanup_spares_current_target_witness :
  "C:\PowerToys\Updates\setup-0.exe" ≠
    current_target example_cfg (ready_to_install "setup-1.exe") ∧
  files (world (ObtainInstaller example_cfg example_oracle
                  (example_world (ready_to_install "setup-1.exe"))))
    !! "C:\PowerToys\Updates\setup-1.exe" = Some "installer-1".
Proof.
  pose proof (cleanup_spares_current_target example_cfg example_oracle
                (example_world (ready_to_install "setup-1.exe"))) as (Hgone & _ & Hkept).
  split.
  - apply Hgone; [eexists; reflexivity | reflexivity].
  - etrans; [exact (Hkept example_release eq_refl eq_refl) | reflexivity].
Defined.

(** C5.  With a [readyToInstall] record whose artifact exists in the
    pending-updates directory and a resolver that reports a new version, two
    calls of [ObtainInstaller] in a row both return the path of that
    artifact, and neither downloads anything. *)
Theorem ObtainInstaller_reuse_twice (cfg : Config) (o1 o2 : Oracle) (w : World)
    (i1 i2 : new_version_download_info) (contents : string) :
  state (persisted w) = readyToInstall →
  files w !! path_append (get_pending_updates_path cfg)
               (downloadedInstallerFilename (persisted w)) = Some contents →
  github_version o1 = Some (new_version i1) →
  github_version o2 = Some (new_version i2) →
  let installer :=
    path_append (get_pending_updates_path cfg) (downloadedInstallerFilename (persisted w)) in
  let first := ObtainInstaller cfg o1 w in
  let second := ObtainInstaller cfg o2 (world first) in
  result first = (Some installer, false) ∧
  result second = (Some installer, false) ∧
  download_count (trace first) = 0 ∧
  download_count (trace second) = 0.
Proof.
  intros Hs F E1 E2 installer first second.
  assert (H1 : first = (Some installer, false, cleaned_up cfg o1 w, cleanup_log cfg o1 w)).
  { apply (ObtainInstaller_reuse_present cfg o1 w i1 contents); assumption. }
  assert (H2 : second =
               (Some installer, false, cleaned_up cfg o2 (cleaned_up cfg o1 w),
                cleanup_log cfg o2 (cleaned_up cfg o1 w))).
  { unfold second. rewrite H1.
    change (world (Some installer, false, cleaned_up cfg o1 w, cleanup_log cfg o1 w))
      with (cleaned_up cfg o1 w).
    apply (ObtainInstaller_reuse_present cfg o2 (cleaned_up cfg o1 w) i2 contents);
      [assumption..|].
    change (persisted (cleaned_up cfg o1 w)) with (persisted w).
    rewrite cleaned_up_target. exact F. }
  rewrite H1, H2. repeat split; apply cleanup_log_quiet.
Qed.

Lemma ObtainInstaller_reuse_twice_witness :
  let w := example_world (ready_to_install "setup-1.exe") in
  let first := ObtainInstaller example_cfg example_oracle w in
  let second := ObtainInstaller example_cfg example_oracle (world first) in
  result first = (Some "C:\PowerToys\Updates\setup-1.exe", false) ∧
  result second = (Some "C:\PowerToys\Updates\setup-1.exe", false) ∧
  download_count (trace first) = 0 ∧
  download_count (trace second) = 0.
Proof.
  apply (ObtainInstaller_reuse_twice example_cfg example_oracle example_oracle
           (example_world (ready_to_install "setup-1.exe"))
           example_release example_release "installer-1");
    reflexivity.
Defined.

(** C6.  With a [readyToInstall] record whose artifact is absent from the
    pending-updates directory, [ObtainInstaller] returns no installer and
    downloads nothing, and the artifact is still absent afterwards; when the
    resolver reports a new version, the last thing it does, after cleanup, is
    to log that the installer file was not found. *)
Theorem ObtainInstaller_missing_artifact (cfg : Config) (o : Oracle) (w : World) :
  state (persisted w) = readyToInstall →
  files w !! path_append (get_pending_updates_path cfg)
               (downloadedInstallerFilename (persisted w)) = None →
  let installer :=
    path_append (get_pending_updates_path cfg) (downloadedInstallerFilename (persisted w)) in
  let r := ObtainInstaller cfg o w in
  (result r).1 = None ∧
  download_count (trace r) = 0 ∧
  files (world r) !! installer = None ∧
  (∀ i : new_version_download_info,
     github_version o = Some (new_version i) →
     result r = (None, false) ∧
     trace r =
       trace (cleanup_updates cfg o w) ++
       [Log error "Installer file not found: {}" [installer]]).
Proof.
  intros Hs F installer r. unfold r.
  destruct (github_version o) as [[|i]|] eqn:E.
  - rewrite ObtainInstaller_up_to_date by exact E.
    repeat split; first [exact F | congruence].
  - rewrite (ObtainInstaller_reuse_absent cfg o w i) by assumption.
    repeat split.
    + unfold trace at 1; simpl. rewrite download_count_app.
      destruct (cleanup_log_quiet cfg o w) as (_ & _ & ->). reflexivity.
    + apply cleaned_up_absent, F.
  - rewrite ObtainInstaller_query_failed by exact E.
    repeat split; first [exact F | congruence].
Qed.

Lemma ObtainInstaller_missing_artifact_witness :
  let r := ObtainInstaller example_cfg example_oracle
             (example_world (ready_to_install "setup-9.exe")) in
  result r = (None, false) ∧
  trace r = [Log error "Installer file not found: {}" ["C:\PowerToys\Updates\setup-9.exe"]].
Proof.
  pose proof (ObtainInstaller_missing_artifact example_cfg example_oracle
                (example_world (ready_to_install "setup-9.exe")) eq_refl eq_refl)
    as (_ & _ & _ & H).
  exact (H example_release eq_refl).
Defined.

(** ** Relocation *)

(** C10.  [CopySelfToTempDir] always writes to one path, the temporary
    directory joined with PowerToys.Update.exe: a copy it returns is that
    path, whatever the machine and the answers of the outside world, so two
    attempts target the same file; afterwards the file holds the running
    updater binary and no other file has changed; and a copy an earlier run
    left there does not make it fail, it is overwritten. *)
Theorem CopySelfToTempDir_fixed_destination (cfg : Config) (o o' : Oracle) (w w' : World) :
  let r := CopySelfToTempDir cfg o w in
  let dst := path_append (temp_directory_path cfg) "PowerToys.Update.exe" in
  (∀ p : string,
     result r = Some p →
     p = dst ∧
     files (world r) !! dst = files w !! get_module_filename cfg ∧
     (∀ q : string, q ≠ dst → files (world r) !! q = files w !! q)) ∧
  (∀ p p' : string,
     result r = Some p → result (CopySelfToTempDir cfg o' w') = Some p' → p = p') ∧
  (∀ contents earlier : string,
     files w !! get_module_filename cfg = Some contents →
     files w !! dst = Some earlier →
     get_module_filename cfg ≠ dst →
     copy_file_ok o = true →
     result r = Some dst ∧ files (world r) !! dst = Some contents).
Proof.
  cbv zeta. fold (temp_copy cfg). split; [|split].
  - intros p Hp. split; [exact (CopySelfToTempDir_result cfg o w p Hp)|].
    revert Hp. rewrite CopySelfToTempDir_run.
    destruct (files w !! get_module_filename cfg) as [contents|]; [|discriminate].
    destruct (bool_decide _ || negb _); [discriminate|].
    intros _. unfold world; simpl. split.
    + apply lookup_insert_eq.
    + intros q Hq. apply lookup_insert_ne. congruence.
  - intros p p' Hp Hp'.
    rewrite (CopySelfToTempDir_result cfg o w p Hp).
    rewrite (CopySelfToTempDir_result cfg o' w' p' Hp'). reflexivity.
  - intros contents earlier Hsrc _ Hne Hok.
    rewrite CopySelfToTempDir_run, Hsrc, Hok.
    rewrite bool_decide_eq_false_2 by exact Hne.
    unfold result, world; simpl. split; [reflexivity | apply lookup_insert_eq].
Qed.

Lemma CopySelfToTempDir_fixed_destination_witness :
  let r := CopySelfToTempDir example_cfg example_oracle example_world_with_copy in
  result r = Some "C:\Temp\PowerToys.Update.exe" ∧
  files (world r) !! "C:\Temp\PowerToys.Update.exe" = Some "updater".
Proof.
  pose proof (CopySelfToTempDir_fixed_destination example_cfg example_oracle example_oracle
                example_world_with_copy example_world_with_copy) as (_ & _ & H).
  apply (H "updater" "updater of an earlier run"); [reflexivity | reflexivity | | reflexivity].
  discriminate.
Defined.

(** ** The command line *)

(** C3.  Selecting Stage 2 without the installer path: [WinMain] passes the
    [nArgs < 2] test, takes the Stage 2 branch and reads [args[2]], which is
    not there.  It logs no error and returns no exit code. *)
Theorem WinMain_stage2_without_installer_path (cfg : Config) (o : Oracle) (w : World)
    (exe : string) :
  UPDATE_NOW_LAUNCH_STAGE2 cfg ≠ UPDATE_NOW_LAUNCH_STAGE1 cfg →
  WinMain cfg o (Some [exe; UPDATE_NOW_LAUNCH_STAGE2 cfg]) w =
  (UndefinedBehaviour, w, [LoggerInit]).
Proof.
  intros Hne.
  apply (WinMain_stage2_no_path cfg o w _ (UPDATE_NOW_LAUNCH_STAGE2 cfg)); done.
Qed.

Lemma WinMain_stage2_without_installer_path_witness :
  WinMain example_cfg example_oracle
    (Some ["C:\Temp\PowerToys.Update.exe"; "-update_now_stage_2"])
    (example_world UpdateState_default) =
  (UndefinedBehaviour, example_world UpdateState_default, [LoggerInit]).
Proof.
  apply (WinMain_stage2_without_installer_path example_cfg example_oracle
           (example_world UpdateState_default) "C:\Temp\PowerToys.Update.exe").
  discriminate.
Defined.

(** The rest of the command-line surface behaves as the interface says. *)
Lemma WinMain_exit_codes (cfg : Config) (o : Oracle) (w : World)
    (args : option (list string)) (action : string) :
  (args ≫= (.!! 1%nat) = None → result (WinMain cfg o args w) = Exit 1) ∧
  (args ≫= (.!! 1%nat) = Some action →
   action ≠ UPDATE_NOW_LAUNCH_STAGE1 cfg →
   action ≠ UPDATE_NOW_LAUNCH_STAGE2 cfg →
   result (WinMain cfg o args w) = Exit 1) ∧
  (args ≫= (.!! 1%nat) = Some action →
   action = UPDATE_NOW_LAUNCH_STAGE1 cfg →
   result (WinMain cfg o args w) = Exit 0) ∧
  (∀ installer_path : string,
     args ≫= (.!! 1%nat) = Some action →
     action ≠ UPDATE_NOW_LAUNCH_STAGE1 cfg →
     action = UPDATE_NOW_LAUNCH_STAGE2 cfg →
     args ≫= (.!! 2%nat) = Some installer_path →
     result (WinMain cfg o args w) = Exit 0).
Proof.
  repeat split.
  - intros E. rewrite WinMain_no_action by exact E. reflexivity.
  - intros E H1 H2. rewrite (WinMain_invalid_action cfg o w args action) by assumption.
    reflexivity.
  - intros E H1. apply (WinMain_stage1 cfg o w args action E H1).
  - intros installer_path E H1 H2 E2.
    apply (WinMain_stage2 cfg o w args action installer_path E H1 H2 E2).
Qed.

(** ** The persisted record *)

(** C4, as the program has it.  A Stage 1 run whose version query fails ends
    by writing the record once: state [errorDownloading], no file name, and
    the time of this run as [githubUpdateLastCheckedDate]. *)
Theorem failed_query_records_time (cfg : Config) (o : Oracle) (w : World)
    (exe : string) (rest : list string) :
  github_version o = None →
  let r := WinMain cfg o (Some (exe :: UPDATE_NOW_LAUNCH_STAGE1 cfg :: rest)) w in
  let s := {| state := errorDownloading;
              githubUpdateLastCheckedDate := Some (now o);
              downloadedInstallerFilename := EmptyString |} in
  result r = Exit 0 ∧ persisted (world r) = s ∧ stores (trace r) = [s].
Proof.
  intros E.
  destruct (WinMain_stage1 cfg o w (Some (exe :: UPDATE_NOW_LAUNCH_STAGE1 cfg :: rest))
              (UPDATE_NOW_LAUNCH_STAGE1 cfg) eq_refl eq_refl) as (Hexit & H).
  cbv zeta in *. split; [exact Hexit|].
  rewrite ObtainInstaller_query_failed in H by exact E.
  destruct H as [(_ & Hp & Hs) | (installer & Hi & _)]; [|discriminate].
  split; [exact Hp | exact Hs].
Qed.

Lemma failed_query_records_time_witness :
  persisted (world (WinMain example_cfg offline_oracle
                      (Some ["PowerToys.Update.exe"; "-update_now"])
                      (example_world (ready_to_install "setup-1.exe")))) =
  {| state := errorDownloading;
     githubUpdateLastCheckedDate := Some 1700000000%Z;
     downloadedInstallerFilename := EmptyString |}.
Proof.
  apply (failed_query_records_time example_cfg offline_oracle
           (example_world (ready_to_install "setup-1.exe")) "PowerToys.Update.exe" []).
  reflexivity.
Defined.

(** C4, as the claim states it, fails: the version query of this run fails,
    and the record written at its end carries the time of the run. *)
Lemma failed_query_time_not_withheld :
  ¬ (github_version offline_oracle = None →
     githubUpdateLastCheckedDate
       (persisted (world (WinMain example_cfg offline_oracle
                            (Some ["PowerToys.Update.exe"; "-update_now"])
                            (example_world UpdateState_default)))) ≠
     Some (now offline_oracle)).
Proof. intros H. apply H; reflexivity. Qed.

(** ** Stage 2 *)

(** C7.  Stage 2 on an artifact that is not an installer package, once the
    process is launched: it waits for the process with a bound of 60000
    milliseconds; if the process has not ended by then, or has ended with an
    exit code other than zero, [InstallNewVersionStage2] reports failure and
    the record the run writes has state [errorDownloading]; if it has ended
    with exit code zero, [InstallNewVersionStage2] reports success and the
    record the run writes has state [upToDate]. *)
Theorem stage2_executable_outcome (cfg : Config) (o : Oracle) (w : World)
    (exe installer_path : string) (rest : list string) :
  UPDATE_NOW_LAUNCH_STAGE2 cfg ≠ UPDATE_NOW_LAUNCH_STAGE1 cfg →
  ends_with (transform towlower installer_path) ".msi" = false →
  ShellExecuteExW_result o = true →
  let installed := result (InstallNewVersionStage2 o installer_path w) in
  let r := WinMain cfg o (Some (exe :: UPDATE_NOW_LAUNCH_STAGE2 cfg :: installer_path :: rest)) w in
  WaitForSingleObject 60000 ∈ trace r ∧
  stores (trace r) = [persisted (world r)] ∧
  (hProcess o = StillActive →
   installed = false ∧ state (persisted (world r)) = errorDownloading) ∧
  (∀ code : Z,
     hProcess o = Exited code → code ≠ 0%Z →
     installed = false ∧ state (persisted (world r)) = errorDownloading) ∧
  (hProcess o = Exited 0 →
   installed = true ∧ state (persisted (world r)) = upToDate).
Proof.
  intros Hne Hsuffix Hlaunch installed r.
  destruct (InstallNewVersionStage2_spec o w installer_path) as (Hr & _ & _ & Hwait).
  destruct (WinMain_stage2 cfg o w
              (Some (exe :: UPDATE_NOW_LAUNCH_STAGE2 cfg :: installer_path :: rest))
              (UPDATE_NOW_LAUNCH_STAGE2 cfg) installer_path eq_refl Hne eq_refl eq_refl)
    as (_ & Hw & Hs).
  cbv zeta in Hr, Hw, Hs, Hwait. fold r in Hw, Hs. fold installed in Hr.
  assert (Hinstalls : installs o installer_path = bool_decide (GetExitCodeProcess o 0 = 0%Z)).
  { unfold installs. rewrite Hsuffix, Hlaunch. reflexivity. }
  rewrite Hr, Hs, Hw, Hinstalls. unfold GetExitCodeProcess.
  split; [|split; [reflexivity|split; [|split]]].
  - unfold r, WinMain. simpl.
    rewrite bool_decide_eq_false_2 by exact Hne.
    rewrite bool_decide_eq_true_2 by reflexivity.
    rewrite !run_bind. apply elem_of_app. right. apply elem_of_app. left.
    apply Hwait; assumption.
  - intros ->. split; reflexivity.
  - intros code -> Hcode. rewrite bool_decide_eq_false_2 by exact Hcode.
    split; reflexivity.
  - intros ->. split; reflexivity.
Qed.

Lemma stage2_executable_outcome_witness :
  let w := example_world UpdateState_default in
  let args := Some ["C:\Temp\PowerToys.Update.exe"; "-update_now_stage_2";
                    "C:\PowerToys\Updates\Setup-2.EXE"] in
  (result (InstallNewVersionStage2 hung_oracle "C:\PowerToys\Updates\Setup-2.EXE" w) = false ∧
   state (persisted (world (WinMain example_cfg hung_oracle args w))) = errorDownloading) ∧
  (result (InstallNewVersionStage2 example_oracle "C:\PowerToys\Updates\Setup-2.EXE" w) = true ∧
   state (persisted (world (WinMain example_cfg example_oracle args w))) = upToDate).
Proof.
  split.
  - refine (proj1 (proj2 (proj2 (stage2_executable_outcome example_cfg hung_oracle
                            (example_world UpdateState_default)
                            "C:\Temp\PowerToys.Update.exe"
                            "C:\PowerToys\Updates\Setup-2.EXE" [] _ eq_refl eq_refl)))
                  eq_refl).
    discriminate.
  - refine (proj2 (proj2 (proj2 (proj2 (stage2_executable_outcome example_cfg example_oracle
                            (example_world UpdateState_default)
                            "C:\Temp\PowerToys.Update.exe"
                            "C:\PowerToys\Updates\Setup-2.EXE" [] _ eq_refl eq_refl))))
                  eq_refl).
    discriminate.
Defined.

(** ** What the updater writes *)

(** C9.  A record written by a run of [WinMain], whatever its command line,
    is the default record with the time of the run as time stamp and the
    state [upToDate] or [errorDownloading]: it is never [readyToDownload] or
    [readyToInstall], it names no file, and it satisfies the invariant that a
    file name is recorded exactly in state [readyToInstall].  So a run keeps
    that invariant of the persisted record. *)
Theorem WinMain_writes (cfg : Config) (o : Oracle) (w : World) (args : option (list string)) :
  let r := WinMain cfg o args w in
  (∀ s : UpdateState,
     s ∈ stores (trace r) →
     (s = set_state upToDate
            (emplace_githubUpdateLastCheckedDate (now o) UpdateState_default) ∨
      s = set_state errorDownloading
            (emplace_githubUpdateLastCheckedDate (now o) UpdateState_default)) ∧
     state s ≠ readyToDownload ∧
     state s ≠ readyToInstall ∧
     githubUpdateLastCheckedDate s = Some (now o) ∧
     downloadedInstallerFilename s = EmptyString ∧
     filename_invariant s) ∧
  (filename_invariant (persisted w) → filename_invariant (persisted (world r))).
Proof.
  cbv zeta.
  destruct (WinMain_stores cfg o w args) as [(Hs & Hp) | (v & Hv & Hs & Hp)];
    cbv zeta in Hs, Hp; rewrite Hs, Hp.
  - split; [|auto]. intros s Hin. apply elem_of_nil in Hin. contradiction.
  - destruct (written_state o v Hv) as (Hd & Hi & Hinv).
    split; [|auto]. intros s Hin. apply list_elem_of_singleton in Hin as ->.
    split; [destruct Hv as [-> | ->]; auto|].
    destruct Hv as [-> | ->]; auto.
Qed.

Lemma WinMain_writes_witness :
  let r := WinMain example_cfg offline_oracle (Some ["PowerToys.Update.exe"; "-update_now"])
             (example_world (ready_to_install "setup-1.exe")) in
  downloadedInstallerFilename (persisted (world r)) = EmptyString ∧
  filename_invariant (persisted (world r)).
Proof.
  pose proof (WinMain_writes example_cfg offline_oracle
                (example_world (ready_to_install "setup-1.exe"))
                (Some ["PowerToys.Update.exe"; "-update_now"])) as (Hs & Hinv).
  split.
  - apply (Hs (written offline_oracle errorDownloading)). apply list_elem_of_singleton.
    reflexivity.
  - apply Hinv. split; [reflexivity | discriminate].
Defined.

(** ** A complete attempt *)

(** C1.  After a complete attempt, Stage 1 and then Stage 2 when Stage 1
    launched it, whatever the version query, the download, the relocation,
    the launches and the installation answered, the persisted state is
    [upToDate] or [errorDownloading]; the attempt wrote the record exactly
    once, and what it wrote is the record it leaves. *)
Theorem update_attempt_final_state (cfg : Config) (o1 o2 : Oracle) (w : World)
    (exe : string) (rest : list string) :
  UPDATE_NOW_LAUNCH_STAGE2 cfg ≠ UPDATE_NOW_LAUNCH_STAGE1 cfg →
  let r := update_attempt cfg o1 o2 exe rest w in
  (state (persisted r.1) = upToDate ∨ state (persisted r.1) = errorDownloading) ∧
  stores r.2 = [persisted r.1].
Proof.
  intros Hne. cbv zeta. unfold update_attempt.
  destruct (WinMain_stage1 cfg o1 w (Some (exe :: UPDATE_NOW_LAUNCH_STAGE1 cfg :: rest))
              (UPDATE_NOW_LAUNCH_STAGE1 cfg) eq_refl eq_refl)
    as (_ & [(Hl & Hp & Hs) | (installer & _ & Hl & _ & Hs)]); cbv zeta in *; rewrite Hl.
  - simpl. rewrite Hp, Hs. split; [|reflexivity].
    destruct (result (ObtainInstaller cfg o1 w)).2; auto.
  - set (w1 := world (WinMain cfg o1 _ w)).
    destruct (WinMain_stage2 cfg o2 w1
                (Some [temp_copy cfg; UPDATE_NOW_LAUNCH_STAGE2 cfg; installer])
                (UPDATE_NOW_LAUNCH_STAGE2 cfg) installer eq_refl Hne eq_refl eq_refl)
      as (_ & Hw2 & Hs2).
    cbv zeta in Hw2, Hs2. simpl. rewrite stores_app, Hs, Hs2, Hw2. split; [|reflexivity].
    destruct (installs o2 installer); auto.
Qed.

Lemma update_attempt_final_state_witness :
  let r := update_attempt example_cfg example_oracle hung_oracle
             "PowerToys.Update.exe" [] (example_world UpdateState_default) in
  (state (persisted r.1) = upToDate ∨ state (persisted r.1) = errorDownloading) ∧
  stores r.2 = [persisted r.1].
Proof.
  apply (update_attempt_final_state example_cfg example_oracle hung_oracle
           (example_world UpdateState_default) "PowerToys.Update.exe" []).
  discriminate.
Defined.

(** * Further properties *)

(** ** Strings *)

Lemma length_append (a b : string) :
  String.length (a +:+ b) = String.length a + String.length b.
Proof. induction a as [|c a IH]; simpl; [reflexivity | rewrite IH; reflexivity]. Qed.

Lemma substring_append_suffix (a b : string) :
  String.substring (String.length a) (String.length b) (a +:+ b) = b.
Proof.
  induction a as [|c a IH]; simpl; [|exact IH].
  induction b as [|c b IH]; simpl; [reflexivity|].
  destruct b; simpl in *; congruence.
Qed.

Lemma substring_split (s : string) (m k : nat) :
  m + k = String.length s →
  s = String.substring 0 m s +:+ String.substring m k s.
Proof.
  revert m k. induction s as [|c s IH]; intros m k H; simpl in *.
  - destruct m, k; try discriminate. reflexivity.
  - destruct m as [|m]; simpl.
    + destruct k as [|k]; [discriminate|]. simpl. f_equal.
      injection H as H. rewrite (IH 0 k H) at 1.
      destruct s; reflexivity.
    + injection H as H. change (String c s = String c (String.substring 0 m s +:+ String.substring m k s)).
      f_equal. apply IH, H.
Qed.

Lemma ends_with_spec (s suffix : string) :
  ends_with s suffix = true ↔ ∃ p : string, s = p +:+ suffix.
Proof.
  unfold ends_with. split.
  - intros H. apply andb_true_iff in H as [Hle Heq].
    apply Nat.leb_le in Hle. apply String.eqb_eq in Heq.
    exists (String.substring 0 (String.length s - String.length suffix) s).
    rewrite <- Heq at 2. apply substring_split. lia.
  - intros [p ->]. rewrite length_append.
    replace (String.length p + String.length suffix - String.length suffix)
      with (String.length p) by lia.
    rewrite substring_append_suffix, String.eqb_refl.
    apply andb_true_iff. split; [apply Nat.leb_le; lia | reflexivity].
Qed.

Lemma transform_append (f : ascii → ascii) (a b : string) :
  transform f (a +:+ b) = transform f a +:+ transform f b.
Proof. induction a as [|c a IH]; simpl; [reflexivity | rewrite IH; reflexivity]. Qed.

Lemma transform_split (f : ascii → ascii) (s a b : string) :
  transform f s = a +:+ b →
  ∃ p q : string, s = p +:+ q ∧ transform f p = a ∧ transform f q = b.
Proof.
  revert s. induction a as [|c a IH]; intros s H; simpl in *.
  - exists EmptyString, s. auto.
  - destruct s as [|d s]; simpl in H; [discriminate|].
    injection H as Hc H. destruct (IH s H) as (p & q & -> & Hp & Hq).
    exists (String d p), q. simpl. rewrite Hc, Hp. auto.
Qed.

(** ** The two stages as whole runs *)

Lemma InstallNewVersionStage2_run (o : Oracle) (w : World) (installer_path : string) :
  InstallNewVersionStage2 o installer_path w =
  let lowered := transform towlower installer_path in
  let attempt :=
    if ends_with lowered ".msi" then [MsiInstallProduct lowered]
    else if ShellExecuteExW_result o then
      [ShellExecute lowered ["/passive"; "/norestart"]; WaitForSingleObject 60000]
    else [] in
  if installs o installer_path then
    (true, with_persisted (written o upToDate) w,
     attempt ++ [StoreState (written o upToDate)])
  else (false, w, attempt ++ [Log error "Installer failed: {}" [lowered]]).
Proof.
  unfold InstallNewVersionStage2, installs. cbv zeta. unfold_calls.
  destruct (ends_with _ ".msi"); simpl.
  - case_bool_decide; reflexivity.
  - destruct (ShellExecuteExW_result o); simpl; [|reflexivity].
    case_bool_decide; reflexivity.
Qed.

Lemma WinMain_stage2_run (cfg : Config) (o : Oracle) (w : World)
    (exe installer_path : string) (rest : list string) :
  UPDATE_NOW_LAUNCH_STAGE2 cfg ≠ UPDATE_NOW_LAUNCH_STAGE1 cfg →
  WinMain cfg o (Some (exe :: UPDATE_NOW_LAUNCH_STAGE2 cfg :: installer_path :: rest)) w =
  let r := InstallNewVersionStage2 o installer_path w in
  if result r then (Exit 0, world r, LoggerInit :: trace r)
  else
    (Exit 0, with_persisted (written o errorDownloading) (world r),
     LoggerInit :: trace r ++ [StoreState (written o errorDownloading)]).
Proof.
  intros Hne. unfold WinMain. simpl.
  rewrite bool_decide_eq_false_2 by exact Hne.
  rewrite bool_decide_eq_true_2 by reflexivity.
  unfold mbind, M_bind, Logger_init, emit. cbv zeta.
  destruct (InstallNewVersionStage2 o installer_path w) as [[installed w1] t1].
  unfold result, world, trace; simpl.
  destruct installed; unfold_calls; simpl; rewrite ?app_nil_r; reflexivity.
Qed.

Lemma InstallNewVersionStage1_run (cfg : Config) (o : Oracle) (w : World) (installer : string) :
  InstallNewVersionStage1 cfg o installer w =
  let r := CopySelfToTempDir cfg o w in
  match result r with
  | None => (false, world r, trace r)
  | Some temp_exe =>
      (ShellExecuteExW_result o, world r,
       trace r ++
       (if tray_window o then [SendClose] else []) ++
       (if ShellExecuteExW_result o
        then [ShellExecute temp_exe [UPDATE_NOW_LAUNCH_STAGE2 cfg; installer]] else []))
  end.
Proof.
  unfold InstallNewVersionStage1. cbv zeta. unfold mbind, M_bind.
  destruct (CopySelfToTempDir cfg o w) as [[[temp_exe|] w1] t1];
    unfold result, world, trace; simpl.
  - unfold_calls. destruct (tray_window o), (ShellExecuteExW_result o); reflexivity.
  - unfold_calls. rewrite app_nil_r. reflexivity.
Qed.

Lemma WinMain_stage1_run (cfg : Config) (o : Oracle) (w : World)
    (exe : string) (rest : list string) :
  WinMain cfg o (Some (exe :: UPDATE_NOW_LAUNCH_STAGE1 cfg :: rest)) w =
  let r := ObtainInstaller cfg o w in
  let v := if (result r).2 then upToDate else errorDownloading in
  match (result r).1 with
  | None =>
      (Exit 0, with_persisted (written o v) (world r),
       LoggerInit :: trace r ++ [StoreState (written o v)])
  | Some installer =>
      let r1 := InstallNewVersionStage1 cfg o installer (world r) in
      if result r1 then (Exit 0, world r1, LoggerInit :: trace r ++ trace r1)
      else
        (Exit 0, with_persisted (written o v) (world r1),
         LoggerInit :: trace r ++ trace r1 ++ [StoreState (written o v)])
  end.
Proof.
  unfold WinMain. simpl.
  rewrite bool_decide_eq_true_2 by reflexivity.
  unfold mbind, M_bind, Logger_init, emit. cbv zeta.
  destruct (ObtainInstaller cfg o w) as [[[installer isUpToDate] w1] t1].
  unfold result, world, trace; simpl.
  destruct installer as [installer|].
  - destruct (InstallNewVersionStage1 cfg o installer w1) as [[started w2] t2]. simpl.
    destruct started; unfold_calls; simpl; rewrite ?app_nil_r; reflexivity.
  - unfold_calls; simpl. rewrite ?app_nil_r. reflexivity.
Qed.

(** ** Stage 2: which branch, and the edges of each *)

(** X1.  The package branch of Stage 2 is chosen without regard to letter
    case: [InstallNewVersionStage2] calls [MsiInstallProductW] exactly when
    the path ends in four characters that lower-case to .msi, and then on the
    lower-cased path. *)
Theorem stage2_suffix_any_case (o : Oracle) (w : World) (installer_path : string) :
  (∃ package : string,
     MsiInstallProduct package ∈ trace (InstallNewVersionStage2 o installer_path w)) ↔
  (MsiInstallProduct (transform towlower installer_path)
     ∈ trace (InstallNewVersionStage2 o installer_path w)) ∧
  ∃ stem suffix : string,
    installer_path = stem +:+ suffix ∧ transform towlower suffix = ".msi".
Proof.
  assert (Hsuffix :
    ends_with (transform towlower installer_path) ".msi" = true ↔
    ∃ stem suffix : string,
      installer_path = stem +:+ suffix ∧ transform towlower suffix = ".msi").
  { rewrite ends_with_spec. split.
    - intros [p H]. apply transform_split in H as (stem & suffix & -> & _ & Hs). eauto.
    - intros (stem & suffix & -> & Hs). exists (transform towlower stem).
      rewrite transform_append, Hs. reflexivity. }
  rewrite <- Hsuffix, InstallNewVersionStage2_run. cbv zeta.
  destruct (ends_with (transform towlower installer_path) ".msi").
  - split; [intros _ | intros [H _]; eauto].
    split; [|reflexivity].
    destruct (installs o installer_path); unfold trace; simpl; apply list_elem_of_here.
  - split; [|intros [_ ?]; discriminate].
    intros [package H]. exfalso. revert H.
    destruct (installs o installer_path), (ShellExecuteExW_result o); unfold trace; simpl;
      rewrite ?elem_of_cons, elem_of_nil; intros H; decompose [or] H; discriminate || contradiction.
Qed.

(** X2.  Stage 2 on an installer package: the one thing it runs is
    [MsiInstallProductW] on the lower-cased path, no process is launched and
    nothing is waited for.  Return code [ERROR_SUCCESS] stores [upToDate];
    any other return code, a required reboot included, logs the failure and
    stores [errorDownloading]. *)
Theorem stage2_package_outcome (cfg : Config) (o : Oracle) (w : World)
    (exe installer_path : string) (rest : list string) :
  UPDATE_NOW_LAUNCH_STAGE2 cfg ≠ UPDATE_NOW_LAUNCH_STAGE1 cfg →
  ends_with (transform towlower installer_path) ".msi" = true →
  let lowered := transform towlower installer_path in
  let r := WinMain cfg o (Some (exe :: UPDATE_NOW_LAUNCH_STAGE2 cfg :: installer_path :: rest)) w in
  result r = Exit 0 ∧
  (MsiInstallProductW_result o = 0%Z →
   persisted (world r) = written o upToDate ∧
   trace r = [LoggerInit; MsiInstallProduct lowered; StoreState (written o upToDate)]) ∧
  (MsiInstallProductW_result o ≠ 0%Z →
   persisted (world r) = written o errorDownloading ∧
   trace r = [LoggerInit; MsiInstallProduct lowered;
              Log error "Installer failed: {}" [lowered];
              StoreState (written o errorDownloading)]).
Proof.
  intros Hne Hmsi. cbv zeta.
  rewrite WinMain_stage2_run by exact Hne. cbv zeta.
  rewrite InstallNewVersionStage2_run. cbv zeta. unfold installs. rewrite Hmsi.
  unfold ERROR_SUCCESS. case_bool_decide as Hcode; simpl.
  - repeat split; intros; first [contradiction | reflexivity].
  - repeat split; intros; first [contradiction | reflexivity].
Qed.

Lemma stage2_package_outcome_witness :
  let o := example_oracle_with None None true true StillActive 3010 in
  let r := WinMain example_cfg o
             (Some ["C:\Temp\PowerToys.Update.exe"; "-update_now_stage_2";
                    "C:\PowerToys\Updates\Setup-2.MSI"])
             (example_world (ready_to_install "Setup-2.MSI")) in
  persisted (world r) = written o errorDownloading ∧
  trace r = [LoggerInit; MsiInstallProduct "c:\powertoys\updates\setup-2.msi";
             Log error "Installer failed: {}" ["c:\powertoys\updates\setup-2.msi"];
             StoreState (written o errorDownloading)].
Proof.
  refine (proj2 (proj2
    (stage2_package_outcome example_cfg
       (example_oracle_with None None true true StillActive 3010)
       (example_world (ready_to_install "Setup-2.MSI"))
       "C:\Temp\PowerToys.Update.exe" "C:\PowerToys\Updates\Setup-2.MSI" [] _ eq_refl)) _);
    discriminate.
Defined.

(** X3.  Stage 2 on an executable that cannot be launched: it does not wait
    and reads no exit code; it logs the failure and the run stores
    [errorDownloading]. *)
Theorem stage2_launch_failure (cfg : Config) (o : Oracle) (w : World)
    (exe installer_path : string) (rest : list string) :
  UPDATE_NOW_LAUNCH_STAGE2 cfg ≠ UPDATE_NOW_LAUNCH_STAGE1 cfg →
  ends_with (transform towlower installer_path) ".msi" = false →
  ShellExecuteExW_result o = false →
  WinMain cfg o (Some (exe :: UPDATE_NOW_LAUNCH_STAGE2 cfg :: installer_path :: rest)) w =
  (Exit 0, with_persisted (written o errorDownloading) w,
   [LoggerInit;
    Log error "Installer failed: {}" [transform towlower installer_path];
    StoreState (written o errorDownloading)]).
Proof.
  intros Hne Hexe Hlaunch.
  rewrite WinMain_stage2_run by exact Hne. cbv zeta.
  rewrite InstallNewVersionStage2_run. cbv zeta. unfold installs.
  rewrite Hexe, Hlaunch. reflexivity.
Qed.

Lemma stage2_launch_failure_witness :
  let o := example_oracle_with None None true false (Exited 0) 0 in
  state (persisted (world (WinMain example_cfg o
           (Some ["C:\Temp\PowerToys.Update.exe"; "-update_now_stage_2";
                  "C:\PowerToys\Updates\setup-2.exe"])
           (example_world UpdateState_default)))) = errorDownloading.
Proof.
  exact (f_equal (λ r : ExitStatus * World * list Effect, state (persisted (world r)))
           (stage2_launch_failure example_cfg
              (example_oracle_with None None true false (Exited 0) 0)
              (example_world UpdateState_default)
              "C:\Temp\PowerToys.Update.exe" "C:\PowerToys\Updates\setup-2.exe" []
              ltac:(discriminate) eq_refl eq_refl)).
Defined.

(** X4.  The results of [WaitForSingleObject] and [GetExitCodeProcess] are
    not tested and [exitCode] starts at zero: when the launch succeeds
    without a process handle, so that no exit code can be read, Stage 2
    reports success and stores [upToDate]. *)
Theorem stage2_unread_exit_code_is_success (cfg : Config) (o : Oracle) (w : World)
    (exe installer_path : string) (rest : list string) :
  UPDATE_NOW_LAUNCH_STAGE2 cfg ≠ UPDATE_NOW_LAUNCH_STAGE1 cfg →
  ends_with (transform towlower installer_path) ".msi" = false →
  ShellExecuteExW_result o = true →
  hProcess o = NoProcess →
  result (InstallNewVersionStage2 o installer_path w) = true ∧
  persisted
    (world (WinMain cfg o
              (Some (exe :: UPDATE_NOW_LAUNCH_STAGE2 cfg :: installer_path :: rest)) w)) =
    written o upToDate.
Proof.
  intros Hne Hexe Hlaunch Hnull.
  rewrite WinMain_stage2_run by exact Hne. cbv zeta.
  rewrite InstallNewVersionStage2_run. cbv zeta. unfold installs, GetExitCodeProcess.
  rewrite Hexe, Hlaunch, Hnull. split; reflexivity.
Qed.

Lemma stage2_unread_exit_code_is_success_witness :
  let o := example_oracle_with None None true true NoProcess 0 in
  result (InstallNewVersionStage2 o "C:\PowerToys\Updates\notes.txt"
            (example_world UpdateState_default)) = true.
Proof.
  apply (stage2_unread_exit_code_is_success example_cfg
           (example_oracle_with None None true true NoProcess 0)
           (example_world UpdateState_default)
           "C:\Temp\PowerToys.Update.exe" "C:\PowerToys\Updates\notes.txt" []);
    [discriminate | reflexivity | reflexivity | reflexivity].
Defined.

(** ** The Installer Acquirer, further *)

Lemma cleanup_log_entries (cfg : Config) (o : Oracle) (w : World) (e : Effect) :
  e ∈ cleanup_log cfg o w → ∃ file : string, e = LogCleanupFailure file.
Proof.
  unfold cleanup_log, cleanup_updates, trace; simpl.
  intros H. apply list_elem_of_fmap in H as (file & -> & _). eauto.
Qed.

(** What [ObtainInstaller] does to the outside world is to log and, at most
    once, to download. *)
Lemma ObtainInstaller_effects (cfg : Config) (o : Oracle) (w : World) (e : Effect) :
  e ∈ trace (ObtainInstaller cfg o w) →
  (∃ file, e = LogCleanupFailure file) ∨
  (∃ lvl fmt args, e = Log lvl fmt args) ∨
  (∃ url dst, e = HttpDownload url dst).
Proof.
  destruct (github_version o) as [[|i]|] eqn:E.
  - rewrite ObtainInstaller_up_to_date by exact E. unfold trace; simpl.
    intros H. apply list_elem_of_singleton in H as ->. eauto 6.
  - assert (Hlog : ∀ t, e ∈ cleanup_log cfg o w ++ t →
                 (e ∈ t → (∃ file, e = LogCleanupFailure file) ∨
                          (∃ lvl fmt args, e = Log lvl fmt args) ∨
                          (∃ url dst, e = HttpDownload url dst)) →
                 (∃ file, e = LogCleanupFailure file) ∨
                 (∃ lvl fmt args, e = Log lvl fmt args) ∨
                 (∃ url dst, e = HttpDownload url dst)).
    { intros t H Ht. apply elem_of_app in H as [H|H]; [|auto].
      left. apply (cleanup_log_entries cfg o w), H. }
    destruct (state (persisted w)) eqn:Hs.
    + rewrite (ObtainInstaller_unexpected cfg o w i) by done. unfold trace; simpl.
      intros H. apply (Hlog _ H). intros H'. apply list_elem_of_singleton in H' as ->. eauto 6.
    + rewrite (ObtainInstaller_download cfg o w i) by auto. cbv zeta.
      destruct (download_result o); unfold trace; simpl; intros H; apply (Hlog _ H);
        rewrite ?elem_of_cons, elem_of_nil; intros H'; decompose [or] H'; subst; eauto 6;
        contradiction.
    + rewrite (ObtainInstaller_reuse cfg o w i) by done. cbv zeta.
      destruct (files (cleaned_up cfg o w) !! current_target cfg (persisted w));
        unfold trace; simpl; intros H.
      * left. apply (cleanup_log_entries cfg o w), H.
      * apply (Hlog _ H). intros H'. apply list_elem_of_singleton in H' as ->. eauto 6.
    + rewrite (ObtainInstaller_download cfg o w i) by auto. cbv zeta.
      destruct (download_result o); unfold trace; simpl; intros H; apply (Hlog _ H);
        rewrite ?elem_of_cons, elem_of_nil; intros H'; decompose [or] H'; subst; eauto 6;
        contradiction.
  - rewrite ObtainInstaller_query_failed by exact E. unfold trace; simpl.
    intros H. apply list_elem_of_singleton in H as ->. eauto 6.
Qed.

(** X5.  [isUpToDate] comes back set exactly when the resolver answers that
    the running version is current; the call then returns no installer and
    leaves the machine, files included, untouched. *)
Theorem ObtainInstaller_isUpToDate (cfg : Config) (o : Oracle) (w : World) :
  let r := ObtainInstaller cfg o w in
  ((result r).2 = true ↔ github_version o = Some version_up_to_date) ∧
  ((result r).2 = true →
   (result r).1 = None ∧ world r = w ∧ download_count (trace r) = 0).
Proof.
  cbv zeta.
  destruct (github_version o) as [[|i]|] eqn:E.
  - rewrite ObtainInstaller_up_to_date by exact E. repeat split.
  - assert (H : (result (ObtainInstaller cfg o w)).2 = false).
    { destruct (state (persisted w)) eqn:Hs.
      - rewrite (ObtainInstaller_unexpected cfg o w i) by done. reflexivity.
      - rewrite (ObtainInstaller_download cfg o w i) by auto. cbv zeta.
        destruct (download_result o); reflexivity.
      - rewrite (ObtainInstaller_reuse cfg o w i) by done. cbv zeta.
        destruct (files (cleaned_up cfg o w) !! current_target cfg (persisted w));
          reflexivity.
      - rewrite (ObtainInstaller_download cfg o w i) by auto. cbv zeta.
        destruct (download_result o); reflexivity. }
    rewrite H. repeat split; intros; discriminate.
  - rewrite ObtainInstaller_query_failed by exact E.
    repeat split; intros; discriminate.
Qed.

Lemma ObtainInstaller_isUpToDate_witness :
  let o := example_oracle_with (Some version_up_to_date) None true true (Exited 0) 0 in
  let w := example_world (ready_to_install "setup-1.exe") in
  (result (ObtainInstaller example_cfg o w)).1 = None ∧
  world (ObtainInstaller example_cfg o w) = w ∧
  download_count (trace (ObtainInstaller example_cfg o w)) = 0.
Proof.
  exact (proj2 (ObtainInstaller_isUpToDate example_cfg
                  (example_oracle_with (Some version_up_to_date) None true true (Exited 0) 0)
                  (example_world (ready_to_install "setup-1.exe"))) eq_refl).
Defined.

(** X6.  A record in state [upToDate] is not a state [ObtainInstaller] can
    update from: when the resolver reports a new version it downloads
    nothing and returns no installer, logging an unexpected state, and the
    Stage 1 run ends with [errorDownloading] without launching anything. *)
Theorem stage1_from_upToDate_record (cfg : Config) (o : Oracle) (w : World)
    (i : new_version_download_info) (exe : string) (rest : list string) :
  state (persisted w) = upToDate →
  github_version o = Some (new_version i) →
  let a := ObtainInstaller cfg o w in
  let r := WinMain cfg o (Some (exe :: UPDATE_NOW_LAUNCH_STAGE1 cfg :: rest)) w in
  result a = (None, false) ∧
  download_count (trace a) = 0 ∧
  (∃ args : list string, Log error "Unexpected update state: {}" args ∈ trace a) ∧
  result r = Exit 0 ∧
  launched (trace r) = None ∧
  persisted (world r) = written o errorDownloading.
Proof.
  intros Hs E. cbv zeta. rewrite WinMain_stage1_run. cbv zeta.
  destruct (ObtainInstaller_quiet cfg o w) as (_ & Hst & Hl).
  revert Hst Hl.
  rewrite (ObtainInstaller_unexpected cfg o w i) by assumption.
  unfold result, world, trace; simpl. intros Hst Hl.
  destruct (cleanup_log_quiet cfg o w) as (_ & _ & Hd).
  repeat split.
  - rewrite download_count_app, Hd. reflexivity.
  - eexists. apply elem_of_app. right. apply list_elem_of_here.
  - rewrite launched_app. simpl. exact Hl.
Qed.

Lemma stage1_from_upToDate_record_witness :
  let w := example_world (written example_oracle upToDate) in
  result (ObtainInstaller example_cfg example_oracle w) = (None, false) ∧
  persisted (world (WinMain example_cfg example_oracle
                      (Some ["PowerToys.Update.exe"; "-update_now"]) w)) =
    written example_oracle errorDownloading.
Proof.
  pose proof (stage1_from_upToDate_record example_cfg example_oracle
                (example_world (written example_oracle upToDate)) example_release
                "PowerToys.Update.exe" [] eq_refl eq_refl) as (H1 & _ & _ & _ & _ & H2).
  exact (conj H1 H2).
Defined.

(** X7.  With a record in state [readyToDownload] or [errorDownloading] and
    a new version reported, [ObtainInstaller] downloads exactly once, to the
    pending-updates directory joined with the file name the resolver gave,
    whether or not a file of that name is already there; it returns that
    path when the download succeeds and no installer when it fails. *)
Theorem ObtainInstaller_downloads_once (cfg : Config) (o : Oracle) (w : World)
    (i : new_version_download_info) :
  state (persisted w) = readyToDownload ∨ state (persisted w) = errorDownloading →
  github_version o = Some (new_version i) →
  let dst := path_append (get_pending_updates_path cfg) (installer_filename i) in
  let r := ObtainInstaller cfg o w in
  download_count (trace r) = 1 ∧
  HttpDownload (installer_download_url i) dst ∈ trace r ∧
  result r = (match download_result o with Some _ => Some dst | None => None end, false) ∧
  files (world r) !! dst =
    match download_result o with
    | Some contents => Some contents
    | None => files (cleaned_up cfg o w) !! dst
    end.
Proof.
  intros Hs E. cbv zeta.
  rewrite (ObtainInstaller_download cfg o w i) by assumption. cbv zeta.
  destruct (cleanup_log_quiet cfg o w) as (_ & _ & Hd).
  destruct (download_result o) as [contents|]; unfold result, world, trace; simpl;
    rewrite download_count_app, Hd; repeat split.
  - apply elem_of_app. right. apply list_elem_of_here.
  - apply lookup_insert_eq.
  - apply elem_of_app. right. apply list_elem_of_here.
Qed.

Lemma ObtainInstaller_downloads_once_witness :
  let o := example_oracle_with (Some (new_version example_release)) None true true (Exited 0) 0 in
  let r := ObtainInstaller example_cfg o (example_world UpdateState_default) in
  download_count (trace r) = 1 ∧ result r = (None, false).
Proof.
  pose proof (ObtainInstaller_downloads_once example_cfg
                (example_oracle_with (Some (new_version example_release)) None true true
                   (Exited 0) 0)
                (example_world UpdateState_default) example_release
                (or_introl eq_refl) eq_refl) as (H1 & _ & H2 & _).
  exact (conj H1 H2).
Defined.



(** ** Stage 1, further *)

(** X9.  [InstallNewVersionStage1] asks the running application to close
    only after the updater has been copied to the temporary directory; when
    the copy fails it closes and launches nothing and leaves the machine as
    it was.  The request is not taken back: when the launch of Stage 2 then
    fails, the application has been asked to close all the same. *)
Theorem stage1_closes_after_relocation (cfg : Config) (o : Oracle) (w : World)
    (installer : string) :
  let r := InstallNewVersionStage1 cfg o installer w in
  (SendClose ∈ trace r →
   tray_window o = true ∧
   is_Some (files w !! get_module_filename cfg) ∧
   files (world r) !! temp_copy cfg = files w !! get_module_filename cfg) ∧
  (result (CopySelfToTempDir cfg o w) = None →
   r = (false, w, [Log error "Failed to copy to temp directory: {}" []])) ∧
  (∀ temp_exe : string,
     result (CopySelfToTempDir cfg o w) = Some temp_exe →
     tray_window o = true →
     ShellExecuteExW_result o = false →
     result r = false ∧ SendClose ∈ trace r ∧ launched (trace r) = None).
Proof.
  cbv zeta. rewrite InstallNewVersionStage1_run. cbv zeta.
  rewrite CopySelfToTempDir_run.
  assert (Hfailed :
    let r := (false, w, [Log error "Failed to copy to temp directory: {}" []]) in
    (SendClose ∈ trace r →
     tray_window o = true ∧
     is_Some (files w !! get_module_filename cfg) ∧
     files (world r) !! temp_copy cfg = files w !! get_module_filename cfg) ∧
    (@None string = None → r = r) ∧
    (∀ temp_exe : string,
       @None string = Some temp_exe → tray_window o = true → ShellExecuteExW_result o = false →
       result r = false ∧ SendClose ∈ trace r ∧ launched (trace r) = None)).
  { cbv zeta. split; [|split].
    - intros Hin. apply list_elem_of_singleton in Hin. discriminate.
    - reflexivity.
    - discriminate. }
  destruct (files w !! get_module_filename cfg) as [contents|] eqn:F; [|exact Hfailed].
  destruct (bool_decide _ || negb _); [exact Hfailed|]. clear Hfailed.
  unfold result, world, trace; simpl. split; [|split; [discriminate|]].
  - destruct (tray_window o).
    + intros _. split; [reflexivity|]. split; [eauto | apply lookup_insert_eq].
    + destruct (ShellExecuteExW_result o); simpl; intros Hin.
      * apply list_elem_of_singleton in Hin. discriminate.
      * apply elem_of_nil in Hin. contradiction.
  - intros temp_exe _ -> ->. simpl. repeat split. apply list_elem_of_here.
Qed.

Lemma stage1_closes_after_relocation_witness :
  let o := example_oracle_with None None true false (Exited 0) 0 in
  let r := InstallNewVersionStage1 example_cfg o "C:\PowerToys\Updates\setup-1.exe"
             (example_world UpdateState_default) in
  result r = false ∧ SendClose ∈ trace r ∧ launched (trace r) = None.
Proof.
  exact (proj2 (proj2 (stage1_closes_after_relocation example_cfg
                         (example_oracle_with None None true false (Exited 0) 0)
                         (example_world UpdateState_default)
                         "C:\PowerToys\Updates\setup-1.exe"))
           "C:\Temp\PowerToys.Update.exe" eq_refl eq_refl eq_refl).
Defined.

(** X10.  When the updater cannot be relocated, because it is itself the
    copy in the temporary directory or because the copy is refused, a
    Stage 1 run asks nothing to close and launches nothing; it leaves the
    files as [ObtainInstaller] left them, a downloaded installer included,
    and stores [upToDate] if the resolver said so and [errorDownloading]
    otherwise. *)
Theorem stage1_relocation_failure (cfg : Config) (o : Oracle) (w : World)
    (exe : string) (rest : list string) :
  get_module_filename cfg = temp_copy cfg ∨ copy_file_ok o = false →
  let a := ObtainInstaller cfg o w in
  let r := WinMain cfg o (Some (exe :: UPDATE_NOW_LAUNCH_STAGE1 cfg :: rest)) w in
  result r = Exit 0 ∧
  launched (trace r) = None ∧
  (SendClose ∉ trace r) ∧
  files (world r) = files (world a) ∧
  persisted (world r) = written o (if (result a).2 then upToDate else errorDownloading).
Proof.
  intros Hcopy. cbv zeta. rewrite WinMain_stage1_run. cbv zeta.
  destruct (ObtainInstaller_quiet cfg o w) as (_ & _ & Hl).
  assert (Hclose : SendClose ∉ trace (ObtainInstaller cfg o w)).
  { intros H. apply ObtainInstaller_effects in H
      as [[? H] | [(? & ? & ? & H) | (? & ? & H)]]; discriminate. }
  assert (Hfail : ∀ w1, result (CopySelfToTempDir cfg o w1) = None ∧
                        world (CopySelfToTempDir cfg o w1) = w1 ∧
                        trace (CopySelfToTempDir cfg o w1) =
                          [Log error "Failed to copy to temp directory: {}" []]).
  { intros w1. rewrite CopySelfToTempDir_run.
    destruct (files w1 !! get_module_filename cfg); [|done].
    assert ((bool_decide (get_module_filename cfg = temp_copy cfg) || negb (copy_file_ok o))
            = true) as ->; [|done].
    destruct Hcopy as [H | ->]; [|apply orb_true_r].
    rewrite bool_decide_eq_true_2 by exact H. reflexivity. }
  destruct (result (ObtainInstaller cfg o w)).1 as [installer|].
  - rewrite InstallNewVersionStage1_run. cbv zeta.
    destruct (Hfail (world (ObtainInstaller cfg o w))) as (-> & Hw & Ht).
    unfold result at 1 2 3, world at 1 2, trace at 1 2 3; simpl. rewrite Hw, Ht.
    repeat split.
    + rewrite !launched_app. simpl. exact Hl.
    + rewrite not_elem_of_cons, !not_elem_of_app. repeat split; [discriminate | exact Hclose | |].
      * intros H. apply list_elem_of_singleton in H. discriminate.
      * intros H. apply list_elem_of_singleton in H. discriminate.
  - unfold result at 1, world at 1 2, trace at 1 2; simpl. repeat split.
    + rewrite launched_app. simpl. exact Hl.
    + rewrite not_elem_of_cons, not_elem_of_app. repeat split; [discriminate | exact Hclose |].
      intros H. apply list_elem_of_singleton in H. discriminate.
Qed.

Lemma stage1_relocation_failure_witness :
  let o := example_oracle_with (Some (new_version example_release)) (Some "installer-2")
             false true (Exited 0) 0 in
  let r := WinMain example_cfg o (Some ["PowerToys.Update.exe"; "-update_now"])
             (example_world UpdateState_default) in
  launched (trace r) = None ∧
  files (world r) !! "C:\PowerToys\Updates\setup-2.exe" = Some "installer-2" ∧
  persisted (world r) = written o errorDownloading.
Proof.
  pose proof (stage1_relocation_failure example_cfg
                (example_oracle_with (Some (new_version example_release)) (Some "installer-2")
                   false true (Exited 0) 0)
                (example_world UpdateState_default) "PowerToys.Update.exe" []
                (or_intror eq_refl)) as (_ & Hl & _ & Hf & Hp).
  split; [exact Hl|]. split; [|exact Hp].
  etrans; [exact (f_equal (λ m : gmap string string, m !! "C:\PowerToys\Updates\setup-2.exe") Hf)|].
  reflexivity.
Defined.

(** ** Whole runs, further *)

(** X11.  The hand-over between the stages.  When Stage 1 launches nothing,
    the attempt is the Stage 1 run and the record it leaves says [upToDate]
    if the resolver said so and [errorDownloading] otherwise.  When it
    launches, the process launched is the copy in the temporary directory,
    its arguments are the Stage 2 flag and the installer [ObtainInstaller]
    returned, Stage 1 has left the record as it found it, and the record the
    attempt leaves says whether that installer installed. *)
Theorem update_attempt_outcome (cfg : Config) (o1 o2 : Oracle) (w : World)
    (exe : string) (rest : list string) :
  UPDATE_NOW_LAUNCH_STAGE2 cfg ≠ UPDATE_NOW_LAUNCH_STAGE1 cfg →
  let a := ObtainInstaller cfg o1 w in
  let r1 := WinMain cfg o1 (Some (exe :: UPDATE_NOW_LAUNCH_STAGE1 cfg :: rest)) w in
  let r := update_attempt cfg o1 o2 exe rest w in
  match launched (trace r1) with
  | None =>
      r = (world r1, trace r1) ∧
      persisted r.1 = written o1 (if (result a).2 then upToDate else errorDownloading)
  | Some child_args =>
      ∃ installer : string,
        (result a).1 = Some installer ∧
        child_args = [temp_copy cfg; UPDATE_NOW_LAUNCH_STAGE2 cfg; installer] ∧
        persisted (world r1) = persisted w ∧
        persisted r.1 =
          written o2 (if installs o2 installer then upToDate else errorDownloading)
  end.
Proof.
  intros Hne. cbv zeta. unfold update_attempt.
  destruct (WinMain_stage1 cfg o1 w (Some (exe :: UPDATE_NOW_LAUNCH_STAGE1 cfg :: rest))
              (UPDATE_NOW_LAUNCH_STAGE1 cfg) eq_refl eq_refl)
    as (_ & [(Hl & Hp & _) | (installer & Hi & Hl & Hp & _)]); cbv zeta in *; rewrite Hl.
  - split; [reflexivity | exact Hp].
  - exists installer. split; [exact Hi|]. split; [reflexivity|]. split; [exact Hp|].
    destruct (WinMain_stage2 cfg o2
                (world (WinMain cfg o1 (Some (exe :: UPDATE_NOW_LAUNCH_STAGE1 cfg :: rest)) w))
                (Some [temp_copy cfg; UPDATE_NOW_LAUNCH_STAGE2 cfg; installer])
                (UPDATE_NOW_LAUNCH_STAGE2 cfg) installer eq_refl Hne eq_refl eq_refl)
      as (_ & Hw2 & _).
    cbv zeta in Hw2. simpl. rewrite Hw2. reflexivity.
Qed.

Lemma update_attempt_outcome_witness :
  let r1 := WinMain example_cfg example_oracle (Some ["PowerToys.Update.exe"; "-update_now"])
              (example_world (ready_to_install "setup-1.exe")) in
  let r := update_attempt example_cfg example_oracle hung_oracle "PowerToys.Update.exe" []
             (example_world (ready_to_install "setup-1.exe")) in
  launched (trace r1) =
    Some ["C:\Temp\PowerToys.Update.exe"; "-update_now_stage_2";
          "C:\PowerToys\Updates\setup-1.exe"] ∧
  persisted (world r1) = ready_to_install "setup-1.exe" ∧
  persisted r.1 = written hung_oracle errorDownloading.
Proof.
  pose proof (update_attempt_outcome example_cfg example_oracle hung_oracle
                (example_world (ready_to_install "setup-1.exe")) "PowerToys.Update.exe" []
                ltac:(discriminate)) as H.
  cbv zeta in H.
  change (launched (trace (WinMain example_cfg example_oracle
            (Some ["PowerToys.Update.exe"; UPDATE_NOW_LAUNCH_STAGE1 example_cfg])
            (example_world (ready_to_install "setup-1.exe")))))
    with (Some ["C:\Temp\PowerToys.Update.exe"; "-update_now_stage_2";
                "C:\PowerToys\Updates\setup-1.exe"]) in H.
  destruct H as (installer & Hi & Hc & Hp & Hf).
  injection Hc as <-.
  split; [reflexivity|]. split; [exact Hp | exact Hf].
Defined.

(** X12.  An invocation [WinMain] rejects with exit code 1 changes nothing:
    the machine is as it was, nothing is written, downloaded or launched.
    And exit code 1 is returned exactly when the mode argument is missing or
    is neither of the two mode flags. *)
Theorem WinMain_rejects_without_effect (cfg : Config) (o : Oracle) (w : World)
    (args : option (list string)) :
  let r := WinMain cfg o args w in
  (result r = Exit 1 ↔
   match args ≫= (.!! 1%nat) with
   | None => True
   | Some action =>
       action ≠ UPDATE_NOW_LAUNCH_STAGE1 cfg ∧ action ≠ UPDATE_NOW_LAUNCH_STAGE2 cfg
   end) ∧
  (result r = Exit 1 →
   world r = w ∧
   stores (trace r) = [] ∧
   download_count (trace r) = 0 ∧
   launched (trace r) = None).
Proof.
  cbv zeta.
  destruct (args ≫= (.!! 1%nat)) as [action|] eqn:E.
  - destruct (decide (action = UPDATE_NOW_LAUNCH_STAGE1 cfg)) as [H1|H1].
    { destruct (WinMain_stage1 cfg o w args action E H1) as (-> & _).
      split; [split; [discriminate | intros [? _]; contradiction] | discriminate]. }
    destruct (decide (action = UPDATE_NOW_LAUNCH_STAGE2 cfg)) as [H2|H2].
    { destruct (args ≫= (.!! 2%nat)) as [installer_path|] eqn:E2.
      - destruct (WinMain_stage2 cfg o w args action installer_path E H1 H2 E2) as (-> & _).
        split; [split; [discriminate | intros [_ ?]; contradiction] | discriminate].
      - rewrite (WinMain_stage2_no_path cfg o w args action) by assumption.
        split; [split; [discriminate | intros [_ ?]; contradiction] | discriminate]. }
    rewrite (WinMain_invalid_action cfg o w args action) by assumption.
    repeat split; assumption.
  - rewrite WinMain_no_action by exact E. repeat split.
Qed.

Lemma WinMain_rejects_without_effect_witness :
  world (WinMain example_cfg example_oracle (Some ["PowerToys.Update.exe"; "-update"])
           (example_world UpdateState_default)) =
  example_world UpdateState_default.
Proof.
  apply (WinMain_rejects_without_effect example_cfg example_oracle
           (example_world UpdateState_default) (Some ["PowerToys.Update.exe"; "-update"])).
  reflexivity.
Defined.

Lemma InstallNewVersionStage1_downloads (cfg : Config) (o : Oracle) (w : World)
    (installer : string) :
  download_count (trace (InstallNewVersionStage1 cfg o installer w)) = 0.
Proof.
  rewrite InstallNewVersionStage1_run. cbv zeta. rewrite CopySelfToTempDir_run.
  destruct (files w !! get_module_filename cfg); [|reflexivity].
  destruct (bool_decide _ || negb _); [reflexivity|].
  unfold result, trace; simpl.
  destruct (tray_window o), (ShellExecuteExW_result o); reflexivity.
Qed.

Lemma InstallNewVersionStage2_downloads (o : Oracle) (w : World) (installer_path : string) :
  download_count (trace (InstallNewVersionStage2 o installer_path w)) = 0.
Proof.
  rewrite InstallNewVersionStage2_run. cbv zeta.
  destruct (installs o installer_path), (ends_with _ ".msi"), (ShellExecuteExW_result o);
    reflexivity.
Qed.

(** X13.  A complete attempt downloads at most once: the downloads of the
    attempt are those of [ObtainInstaller], one when the resolver reports a
    new version and the record says [readyToDownload] or [errorDownloading],
    none otherwise; relocation, launch and Stage 2 never download. *)
Theorem update_attempt_downloads (cfg : Config) (o1 o2 : Oracle) (w : World)
    (exe : string) (rest : list string) :
  UPDATE_NOW_LAUNCH_STAGE2 cfg ≠ UPDATE_NOW_LAUNCH_STAGE1 cfg →
  let r := update_attempt cfg o1 o2 exe rest w in
  download_count r.2 = download_count (trace (ObtainInstaller cfg o1 w)) ∧
  download_count r.2 =
    match github_version o1 with
    | Some (new_version _) =>
        if bool_decide (state (persisted w) = readyToDownload ∨
                        state (persisted w) = errorDownloading) then 1 else 0
    | _ => 0
    end.
Proof.
  intros Hne. cbv zeta.
  assert (Hobtain : download_count (trace (ObtainInstaller cfg o1 w)) =
    match github_version o1 with
    | Some (new_version _) =>
        if bool_decide (state (persisted w) = readyToDownload ∨
                        state (persisted w) = errorDownloading) then 1 else 0
    | _ => 0
    end).
  { destruct (cleanup_log_quiet cfg o1 w) as (_ & _ & Hd).
    destruct (github_version o1) as [[|i]|] eqn:E.
    - rewrite ObtainInstaller_up_to_date by exact E. reflexivity.
    - case_bool_decide as Hs.
      + rewrite (ObtainInstaller_download cfg o1 w i) by assumption. cbv zeta.
        destruct (download_result o1); unfold trace; simpl;
          rewrite download_count_app, Hd; reflexivity.
      + destruct (state (persisted w)) eqn:Hst.
        * rewrite (ObtainInstaller_unexpected cfg o1 w i) by done.
          unfold trace; simpl. rewrite download_count_app, Hd. reflexivity.
        * exfalso. auto.
        * rewrite (ObtainInstaller_reuse cfg o1 w i) by done. cbv zeta.
          destruct (files (cleaned_up cfg o1 w) !! current_target cfg (persisted w));
            unfold trace; simpl; rewrite ?download_count_app, Hd; reflexivity.
        * exfalso. auto.
    - rewrite ObtainInstaller_query_failed by exact E. reflexivity. }
  rewrite <- Hobtain.
  enough (download_count (update_attempt cfg o1 o2 exe rest w).2 =
          download_count (trace (ObtainInstaller cfg o1 w))) by auto.
  assert (Hstage1 :
    download_count (trace (WinMain cfg o1 (Some (exe :: UPDATE_NOW_LAUNCH_STAGE1 cfg :: rest)) w))
    = download_count (trace (ObtainInstaller cfg o1 w))).
  { rewrite WinMain_stage1_run. cbv zeta.
    destruct (result (ObtainInstaller cfg o1 w)).1 as [installer|].
    - pose proof (InstallNewVersionStage1_downloads cfg o1
                    (world (ObtainInstaller cfg o1 w)) installer) as Hd.
      destruct (result (InstallNewVersionStage1 cfg o1 installer _));
        unfold trace at 1; simpl; rewrite !download_count_app, Hd; simpl; lia.
    - unfold trace at 1; simpl. rewrite download_count_app. simpl. lia. }
  unfold update_attempt.
  destruct (WinMain_stage1 cfg o1 w (Some (exe :: UPDATE_NOW_LAUNCH_STAGE1 cfg :: rest))
              (UPDATE_NOW_LAUNCH_STAGE1 cfg) eq_refl eq_refl)
    as (_ & [(Hl & _) | (installer & _ & Hl & _)]); cbv zeta in Hl; rewrite Hl.
  - exact Hstage1.
  - simpl. rewrite download_count_app, Hstage1.
    rewrite WinMain_stage2_run by exact Hne. cbv zeta.
    pose proof (InstallNewVersionStage2_downloads o2
                  (world (WinMain cfg o1 (Some (exe :: UPDATE_NOW_LAUNCH_STAGE1 cfg :: rest)) w))
                  installer) as Hd.
    destruct (result (InstallNewVersionStage2 o2 installer _));
      unfold trace at 2; simpl; rewrite ?download_count_app, Hd; simpl; lia.
Qed.

Lemma update_attempt_downloads_witness :
  download_count
    (update_attempt example_cfg example_oracle example_oracle "PowerToys.Update.exe" []
       (example_world (ready_to_install "setup-1.exe"))).2 = 0.
Proof.
  etrans;
    [exact (proj2 (update_attempt_downloads example_cfg example_oracle example_oracle
                     (example_world (ready_to_install "setup-1.exe"))
                     "PowerToys.Update.exe" [] ltac:(discriminate)))|].
  reflexivity.
Defined.

Lemma args_with_action (args : option (list string)) (action : string) :
  args ≫= (.!! 1%nat) = Some action →
  ∃ (exe : string) (rest : list string), args = Some (exe :: action :: rest).
Proof.
  destruct args as [[|exe [|second rest]]|]; try discriminate.
  intros [= <-]. eauto.
Qed.

(** X14.  The logger is initialised exactly when a mode argument is present,
    and then before anything else is done; the error about missing
    arguments is logged by a run that never initialises it. *)
Theorem WinMain_logger_init (cfg : Config) (o : Oracle) (w : World)
    (args : option (list string)) :
  let r := WinMain cfg o args w in
  head (trace r) =
    Some (match args ≫= (.!! 1%nat) with
          | None => Log error "Invalid command-line arguments." []
          | Some _ => LoggerInit
          end) ∧
  (LoggerInit ∈ trace r ↔ is_Some (args ≫= (.!! 1%nat))).
Proof.
  cbv zeta.
  destruct (args ≫= (.!! 1%nat)) as [action|] eqn:E.
  - enough (∃ t, trace (WinMain cfg o args w) = LoggerInit :: t) as [t ->].
    { split; [reflexivity|]. split; [eauto | intros _; apply list_elem_of_here]. }
    destruct (args_with_action args action E) as (exe & rest & ->).
    destruct (decide (action = UPDATE_NOW_LAUNCH_STAGE1 cfg)) as [->|H1].
    { rewrite WinMain_stage1_run. cbv zeta.
      destruct (result (ObtainInstaller cfg o w)).1 as [installer|]; [|eauto].
      destruct (result (InstallNewVersionStage1 cfg o installer _)); eauto. }
    destruct (decide (action = UPDATE_NOW_LAUNCH_STAGE2 cfg)) as [->|H2].
    { destruct rest as [|installer_path rest].
      - rewrite (WinMain_stage2_no_path cfg o w _ (UPDATE_NOW_LAUNCH_STAGE2 cfg)) by done.
        eauto.
      - rewrite WinMain_stage2_run by exact H1. cbv zeta.
        destruct (result (InstallNewVersionStage2 o installer_path w)); eauto. }
    rewrite (WinMain_invalid_action cfg o w _ action) by done. eauto.
  - rewrite WinMain_no_action by exact E. split; [reflexivity|].
    split; [|intros [? ?]; discriminate].
    intros H. apply list_elem_of_singleton in H. discriminate.
Qed.
